(** * The python-performance plugin: dispatcher over the in-memory store

    A shallow embedding of [plugins/python-plugin/app.py].  The request
    handlers are translated into a state-and-exception monad over the
    module-level [data_store]; the JSON values that flow through them are
    kept dynamically typed, as Python has them, with the arithmetic of the
    interpreter (unbounded [int], binary64 [float], [bool] as a subtype of
    [int]) written out.

    A handler takes the value [request.get_json()] returned, so a request
    is a parsed JSON document.  The clock, the random generator and the
    interpreter's text rendering of values and exceptions are read from an
    environment passed with each request.  [print] writes to a UTF-8
    standard output: nothing of it is kept but whether the line could be
    encoded.  The exhaustion of memory by a very long sequence is left
    out. *)

From Stdlib Require Import ZArith List String Bool Lia.
From Stdlib Require Import Floats.SpecFloat.
Import ListNotations.

Local Open Scope string_scope.
Local Open Scope Z_scope.

#[local] Set Warnings "-register-all".

(** ** JSON values as Python objects *)

Module Py.

(** What [request.get_json()] can return, and what the handlers store and
    send back.  A [dict] keeps its insertion order, so it is an association
    list; a key is looked up at its first occurrence. *)
Inductive value : Type :=
| VNone
| VBool (b : bool)
| VInt (z : Z)
| VFloat (f : spec_float)
| VStr (s : string)
| VList (l : list value)
| VDict (d : list (string * value)).

(** The exceptions the handlers can meet; all of them derive from
    [Exception], so every [except Exception] clause catches them. *)
Inductive exn : Type :=
| TypeError
| AttributeError
| ZeroDivisionError
| OverflowError
| ValueError
| MemoryError
| RecursionError
| UnicodeEncodeError.

(** The outcome of evaluating an expression. *)
Inductive result (A : Type) : Type :=
| Ok (a : A)
| Raise (e : exn).

Arguments Ok {A} a.
Arguments Raise {A} e.

Definition rbind {A B : Type} (r : result A) (k : A -> result B) : result B :=
  match r with
  | Ok a => k a
  | Raise e => Raise e
  end.

Declare Scope py_scope.
Delimit Scope py_scope with py.
Notation "'let?' x ':=' r 'in' k" := (rbind r (fun x => k))
  (at level 10, x name, r at level 100, k at level 200) : py_scope.
Local Open Scope py_scope.

(** *** binary64 *)

Definition prec : Z := 53.
Definition emax : Z := 1024.

Definition fadd : spec_float -> spec_float -> spec_float := SFadd prec emax.
Definition fsub : spec_float -> spec_float -> spec_float := SFsub prec emax.
Definition fmul : spec_float -> spec_float -> spec_float := SFmul prec emax.
Definition fdiv : spec_float -> spec_float -> spec_float := SFdiv prec emax.

Definition is_infinite (f : spec_float) : bool :=
  match f with S754_infinity _ => true | _ => false end.

Definition is_zero (f : spec_float) : bool :=
  match f with S754_zero _ => true | _ => false end.

Definition is_nan (f : spec_float) : bool :=
  match f with S754_nan => true | _ => false end.

(** [float(i)] for an [int]: the nearest double, ties to even;
    "int too large to convert to float" otherwise. *)
Definition float_of_int (i : Z) : result spec_float :=
  let f := binary_normalize prec emax i 0 false in
  if is_infinite f then Raise OverflowError else Ok f.

(** The correctly rounded quotient of two integers, [b] not zero: what
    [int / int] computes, and the value of a decimal literal [a/b]. *)
Definition round_quotient (a b : Z) : spec_float :=
  let s := xorb (a <? 0) (b <? 0) in
  match Z.abs a with
  | Z0 => S754_zero s
  | ma =>
      let '(q, e, l) := SFdiv_core_binary prec emax ma 0 (Z.abs b) 0 in
      binary_round_aux prec emax s q e l
  end.

(** [i ? f] for an [int] and a [float], compared exactly (no conversion);
    [None] when [f] is a NaN. *)
Definition int_float_compare (i : Z) (f : spec_float) : option comparison :=
  match f with
  | S754_nan => None
  | S754_infinity s => Some (if s then Gt else Lt)
  | S754_zero _ => Some (i ?= 0)
  | S754_finite s m e =>
      let fm := if s then Zneg m else Zpos m in
      if 0 <=? e then Some (i ?= fm * 2 ^ e)
      else Some (i * 2 ^ (- e) ?= fm)
  end.

(** [round(x, 2)] on a float: the decimal expansion of [x] correctly
    rounded to two places (ties to even), read back as the nearest
    double.  NaNs and infinities round to themselves. *)
Definition round_half_even (n d : Z) : Z :=
  let q := n / d in
  let r := n mod d in
  match 2 * r ?= d with
  | Lt => q
  | Gt => q + 1
  | Eq => if Z.even q then q else q + 1
  end.

Definition round2 (x : spec_float) : spec_float :=
  match x with
  | S754_finite s m e =>
      let k := if 0 <=? e then Zpos m * 100 * 2 ^ e
               else round_half_even (Zpos m * 100) (2 ^ (- e)) in
      match k with
      | Z0 => S754_zero s
      | _ => round_quotient (if s then - k else k) 100
      end
  | _ => x
  end.

(** *** The numeric tower: [bool] is an [int], [int] mixes with [float] *)

Inductive num : Type :=
| NInt (i : Z)
| NFloat (f : spec_float).

Definition as_num (v : value) : option num :=
  match v with
  | VBool b => Some (NInt (if b then 1 else 0))
  | VInt i => Some (NInt i)
  | VFloat f => Some (NFloat f)
  | _ => None
  end.

Definition of_num (n : num) : value :=
  match n with
  | NInt i => VInt i
  | NFloat f => VFloat f
  end.

Definition num_float (n : num) : result spec_float :=
  match n with
  | NInt i => float_of_int i
  | NFloat f => Ok f
  end.

Definition num_add (x y : num) : result num :=
  match x, y with
  | NInt a, NInt b => Ok (NInt (a + b))
  | _, _ => let? a := num_float x in
            let? b := num_float y in
            Ok (NFloat (fadd a b))
  end.

Definition num_sub (x y : num) : result num :=
  match x, y with
  | NInt a, NInt b => Ok (NInt (a - b))
  | _, _ => let? a := num_float x in
            let? b := num_float y in
            Ok (NFloat (fsub a b))
  end.

Definition num_mul (x y : num) : result num :=
  match x, y with
  | NInt a, NInt b => Ok (NInt (a * b))
  | _, _ => let? a := num_float x in
            let? b := num_float y in
            Ok (NFloat (fmul a b))
  end.

(** True division always yields a [float]. *)
Definition num_truediv (x y : num) : result spec_float :=
  match x, y with
  | NInt a, NInt b =>
      if b =? 0 then Raise ZeroDivisionError
      else let f := round_quotient a b in
           if is_infinite f then Raise OverflowError else Ok f
  | _, _ => let? a := num_float x in
            let? b := num_float y in
            if is_zero b then Raise ZeroDivisionError else Ok (fdiv a b)
  end.

(** *** Operators on values *)

(** [bool(v)]. *)
Definition py_truthy (v : value) : bool :=
  match v with
  | VNone => false
  | VBool b => b
  | VInt i => negb (i =? 0)
  | VFloat f => negb (is_zero f)
  | VStr s => negb (String.eqb s "")
  | VList l => match l with [] => false | _ => true end
  | VDict d => match d with [] => false | _ => true end
  end.

Fixpoint lookup (k : string) (d : list (string * value)) : option value :=
  match d with
  | [] => None
  | (k', v) :: d' => if String.eqb k k' then Some v else lookup k d'
  end.

(** [d.get(k, dflt)]: only a [dict] has the method. *)
Definition py_get (d : value) (k : string) (dflt : value) : result value :=
  match d with
  | VDict l => Ok (match lookup k l with Some v => v | None => dflt end)
  | _ => Raise AttributeError
  end.

(** [s == v] for a string literal [s]. *)
Definition py_eq_str (s : string) (v : value) : bool :=
  match v with
  | VStr t => String.eqb s t
  | _ => false
  end.

(** [v in [s1, s2, ...]] for a list of string literals. *)
Definition py_in_strs (v : value) (l : list string) : bool :=
  existsb (fun s => py_eq_str s v) l.

(** [i == v] for an [int] [i]: numbers compare by value, across types. *)
Definition py_eq_int (i : Z) (v : value) : bool :=
  match v with
  | VBool b => i =? (if b then 1 else 0)
  | VInt j => i =? j
  | VFloat f => match int_float_compare i f with Some Eq => true | _ => false end
  | _ => false
  end.

(** [i < v] for an [int] [i]. *)
Definition py_int_lt (i : Z) (v : value) : result bool :=
  match v with
  | VBool b => Ok (i <? (if b then 1 else 0))
  | VInt j => Ok (i <? j)
  | VFloat f => Ok (match int_float_compare i f with Some Lt => true | _ => false end)
  | _ => Raise TypeError
  end.

(** [v <= i] for an [int] [i]. *)
Definition py_le_int (v : value) (i : Z) : result bool :=
  match v with
  | VBool b => Ok ((if b then 1 else 0) <=? i)
  | VInt j => Ok (j <=? i)
  | VFloat f => Ok (match int_float_compare i f with Some (Gt | Eq) => true | _ => false end)
  | _ => Raise TypeError
  end.

(** [min(v, i)]: the first argument is kept unless the second is smaller. *)
Definition py_min (v : value) (i : Z) : result value :=
  let? smaller := py_int_lt i v in
  Ok (if smaller then VInt i else v).

Definition py_add (a b : value) : result value :=
  match as_num a, as_num b with
  | Some x, Some y => let? n := num_add x y in Ok (of_num n)
  | _, _ =>
      match a, b with
      | VStr s, VStr t => Ok (VStr (s ++ t))
      | VList l, VList m => Ok (VList (l ++ m))
      | _, _ => Raise TypeError
      end
  end.

Definition py_sub (a b : value) : result value :=
  match as_num a, as_num b with
  | Some x, Some y => let? n := num_sub x y in Ok (of_num n)
  | _, _ => Raise TypeError
  end.

(** A sequence repeated [n] times; the count must fit [Py_ssize_t], and so
    must the length of the result: a string that would be longer is an
    [OverflowError] ("repeated string is too long"), a list a
    [MemoryError]. *)
Definition maxsize : Z := 2 ^ 63 - 1.

Definition repeat_count (too_long : exn) (len n : Z) : result Z :=
  if (n <? - maxsize - 1) || (maxsize <? n) then Raise OverflowError
  else if n <=? 0 then Ok 0
  else if maxsize <? len * n then Raise too_long
  else Ok n.

Definition str_repeat (s : string) (n : Z) : result value :=
  let? c := repeat_count OverflowError (Z.of_nat (String.length s)) n in
  Ok (VStr (Z.iter c (String.append s) "")).

Definition list_repeat (l : list value) (n : Z) : result value :=
  let? c := repeat_count MemoryError (Z.of_nat (List.length l)) n in
  Ok (VList (Z.iter c (List.app l) [])).

Definition as_index (v : value) : option Z :=
  match v with
  | VBool b => Some (if b then 1 else 0)
  | VInt i => Some i
  | _ => None
  end.

Definition py_mul (a b : value) : result value :=
  match as_num a, as_num b with
  | Some x, Some y => let? n := num_mul x y in Ok (of_num n)
  | _, _ =>
      match a, as_index b, as_index a, b with
      | VStr s, Some n, _, _ => str_repeat s n
      | VList l, Some n, _, _ => list_repeat l n
      | _, _, Some n, VStr s => str_repeat s n
      | _, _, Some n, VList l => list_repeat l n
      | _, _, _, _ => Raise TypeError
      end
  end.

Definition py_truediv (a b : value) : result spec_float :=
  match as_num a, as_num b with
  | Some x, Some y => num_truediv x y
  | _, _ => Raise TypeError
  end.



(** The text of a string is kept as the bytes of its UTF-8 encoding,
    generalised to the lone surrogates a JSON document can carry (as in
    ["\ud800"]): the code points U+D800 to U+DFFF are the three-byte
    sequences that start with [0xED] and go on with a byte of [0xA0] to
    [0xBF], which well-formed UTF-8 never has. *)
Fixpoint has_surrogate (s : string) : bool :=
  match s with
  | String a (String b _ as rest) =>
      (Nat.eqb (Ascii.nat_of_ascii a) 237
       && Nat.leb 160 (Ascii.nat_of_ascii b)
       && Nat.leb (Ascii.nat_of_ascii b) 191)
      || has_surrogate rest
  | _ => false
  end.

(** [print(f"... {v} ...")] around literal text: the line is encoded as it
    is written.  An f-string formats a [str] as its own text, which cannot
    be encoded when it holds a lone surrogate; the text of any other JSON
    value ([None], a number, or a container, whose strings are shown
    escaped) always can. *)
Definition py_print (v : value) : result unit :=
  match v with
  | VStr s => if has_surrogate s then Raise UnicodeEncodeError else Ok tt
  | _ => Ok tt
  end.

(** [time.sleep(secs)] refuses a negative or NaN duration. *)
Definition py_sleep (secs : spec_float) : result unit :=
  if is_nan secs || SFltb secs (S754_zero false) then Raise ValueError
  else Ok tt.

End Py.

Import Py.
Local Open Scope py_scope.

(** ** The store *)

(** An entry of [data_store["products"]]. *)
Record product : Type := mkProduct {
  p_id : Z;
  p_name : value;
  p_price : value;
  p_category : value;
  p_stock : value
}.

Inductive order_status : Type := Processing | Confirmed.

(** The product linkage that only [/execute]'s [create_order] records. *)
Record order_link : Type := mkLink {
  l_product_id : value;
  l_product_name : value;
  l_quantity : value;
  l_unit_price : value
}.

(** An entry of [data_store["orders"]], in either of its two shapes. *)
Record order : Type := mkOrder {
  o_id : Z;
  o_link : option order_link;
  o_total_price : value;
  o_created_at : string;
  o_status : order_status
}.

(** [data_store]: the three counters, the two sequences and the analytics
    aggregate. *)
Record store : Type := mkStore {
  requests : Z;
  calculations : Z;
  queries : Z;
  products : list product;
  orders : list order;
  total_revenue : value;
  orders_count : Z
}.

(** A decimal literal [n/100], as the parser rounds it. *)
Definition cents (n : Z) : value := VFloat (round_quotient n 100).

Definition data_store : store := {|
  requests := 0;
  calculations := 0;
  queries := 0;
  products :=
    [ mkProduct 1 (VStr "Python Book") (cents 2999) (VStr "books") (VInt 50);
      mkProduct 2 (VStr "Flask Guide") (cents 3999) (VStr "books") (VInt 25);
      mkProduct 3 (VStr "Code Editor") (cents 9999) (VStr "software") (VInt 100) ];
  orders := [];
  total_revenue := VInt 0;
  orders_count := 0
|}.

Definition len {A : Type} (l : list A) : Z := Z.of_nat (List.length l).

Definition product_value (p : product) : value :=
  VDict [ ("id", VInt (p_id p)); ("name", p_name p); ("price", p_price p);
          ("category", p_category p); ("stock", p_stock p) ].

Definition status_value (st : order_status) : value :=
  match st with
  | Processing => VStr "processing"
  | Confirmed => VStr "confirmed"
  end.

Definition order_value (o : order) : value :=
  match o_link o with
  | Some l =>
      VDict [ ("id", VInt (o_id o)); ("product_id", l_product_id l);
              ("product_name", l_product_name l); ("quantity", l_quantity l);
              ("unit_price", l_unit_price l); ("total_price", o_total_price o);
              ("created_at", VStr (o_created_at o)); ("status", status_value (o_status o)) ]
  | None =>
      VDict [ ("id", VInt (o_id o)); ("total_price", o_total_price o);
              ("created_at", VStr (o_created_at o)); ("status", status_value (o_status o)) ]
  end.

(** Field updates, one per assignment of the source. *)
Definition incr_requests (s : store) : store :=
  mkStore (requests s + 1) (calculations s) (queries s) (products s) (orders s)
          (total_revenue s) (orders_count s).

Definition incr_calculations (s : store) : store :=
  mkStore (requests s) (calculations s + 1) (queries s) (products s) (orders s)
          (total_revenue s) (orders_count s).

Definition incr_queries (s : store) : store :=
  mkStore (requests s) (calculations s) (queries s + 1) (products s) (orders s)
          (total_revenue s) (orders_count s).

Definition append_product (p : product) (s : store) : store :=
  mkStore (requests s) (calculations s) (queries s) (products s ++ [p]) (orders s)
          (total_revenue s) (orders_count s).

Definition append_order (o : order) (s : store) : store :=
  mkStore (requests s) (calculations s) (queries s) (products s) (orders s ++ [o])
          (total_revenue s) (orders_count s).

Definition set_total_revenue (v : value) (s : store) : store :=
  mkStore (requests s) (calculations s) (queries s) (products s) (orders s)
          v (orders_count s).

Definition incr_orders_count (s : store) : store :=
  mkStore (requests s) (calculations s) (queries s) (products s) (orders s)
          (total_revenue s) (orders_count s + 1).

(** ** What a request reads from outside the store *)

(** The clock, the random generator and the interpreter's rendering of
    values and exceptions as text, as one request sees them. *)
Record env : Type := mkEnv {
  now : nat -> string;         (* the k-th [datetime.now().isoformat()] *)
  elapsed : nat -> value;      (* the k-th rounded elapsed time, in ms *)
  uptime : Z;                  (* [int(time.time() - start_time)] *)
  randint : nat -> Z;          (* the k-th draw of the generator *)
  str_of : value -> string;    (* [str(v)], as an f-string formats it *)
  exn_str : exn -> string      (* [str(e)] of the exception caught *)
}.

(** ** Handlers as computations over the store *)

(** A statement sequence: it transforms the store and either yields a
    value or raises; what was written before a [raise] stays written. *)
Definition M (A : Type) : Type := store -> store * result A.

Definition ret {A : Type} (a : A) : M A := fun s => (s, Ok a).

Definition bind {A B : Type} (m : M A) (k : A -> M B) : M B :=
  fun s => match m s with
           | (s', Ok a) => k a s'
           | (s', Raise e) => (s', Raise e)
           end.

Definition lift {A : Type} (r : result A) : M A := fun s => (s, r).

Definition get : M store := fun s => (s, Ok s).

Definition modify (f : store -> store) : M unit := fun s => (f s, Ok tt).

(** [try: m  except Exception as e: h e]. *)
Definition try_except {A : Type} (m : M A) (h : exn -> M A) : M A :=
  fun s => match m s with
           | (s', Ok a) => (s', Ok a)
           | (s', Raise e) => h e s'
           end.

Notation "x <- m ;; k" := (bind m (fun x => k))
  (at level 61, m at next level, right associativity) : py_scope.
Notation "m ;; k" := (bind m (fun _ => k))
  (at level 61, right associativity) : py_scope.

(** What the framework sends back: a JSON body with a status, or its own
    500 page when the view function let an exception escape. *)
Inductive response : Type :=
| Json (status : Z) (body : value)
| Unhandled.

Definition status_of (r : response) : Z :=
  match r with
  | Json st _ => st
  | Unhandled => 500
  end.

Definition body_of (r : response) : value :=
  match r with
  | Json _ b => b
  | Unhandled => VNone
  end.

Definition serve (m : M response) (s : store) : store * response :=
  match m s with
  | (s', Ok r) => (s', r)
  | (s', Raise _) => (s', Unhandled)
  end.

(** [request.get_json() or {}]. *)
Definition get_json_or_empty (body : value) : value :=
  if py_truthy body then body else VDict [].

(** *** [/health] *)

Definition health (e : env) : store -> store * response :=
  serve (
    modify incr_requests ;;
    s <- get ;;
    ret (Json 200 (VDict
      [ ("status", VStr "healthy");
        ("timestamp", VStr (now e 0));
        ("plugin_type", VStr "python-performance");
        ("version", VStr "1.1.0");
        ("requests_served", VInt (requests s));
        ("uptime_seconds", VInt (uptime e));
        ("memory_usage", VStr "low");
        ("response_time_ms", VInt 1);
        ("new_features", VList [ VStr "Enhanced analytics"; VStr "Version tracking";
                                 VStr "Performance metrics" ]) ]))).

(** *** The three webhook endpoints *)

(** The body of every webhook's [except] clause; [hook] is what
    [hook if 'hook' in locals() else 'unknown'] evaluates to: the value
    bound by the first statements of the [try] block once they have run,
    ['unknown'] before. *)
Definition hook_failed (e : env) (hook : value) (ex : exn) : M response :=
  ret (Json 500 (VDict
    [ ("success", VBool false); ("error", VStr (exn_str e ex)); ("hook", hook) ])).

Definition unsupported_hook (e : env) (hook : value) (supported : list string) : M response :=
  ret (Json 400 (VDict
    [ ("success", VBool false);
      ("error", VStr ("Unsupported hook: " ++ str_of e hook));
      ("supported_hooks", VList (map VStr supported)) ])).

Definition hook_processed (e : env) (hook : value) (message : string) : M response :=
  ret (Json 200 (VDict
    [ ("success", VBool true);
      ("hook", hook);
      ("message", VStr message);
      ("processing_time_ms", elapsed e 0);
      ("timestamp", VStr (now e 1)) ])).

Definition product_hooks : list string := ["product.created"; "product.updated"].

(** The statements of [handle_product_action]'s [try] block that follow
    the binding of [hook]. *)
Definition product_action_body (e : env) (request_data hook : value) : M response :=
  payload <- lift (py_get request_data "payload" (VDict [])) ;;
  lift (py_print hook) ;;
  if py_in_strs hook product_hooks then
    product_id <- lift (py_get payload "id" (VStr "unknown")) ;;
    product_name <- lift (py_get payload "name" (VStr "Unknown Product")) ;;
    (if py_eq_str "product.created" hook then
       s <- get ;;
       price <- lift (py_get payload "price" (VFloat (S754_zero false))) ;;
       category <- lift (py_get payload "category" (VStr "general")) ;;
       stock <- lift (py_get payload "stock" (VInt 0)) ;;
       modify (append_product
                 (mkProduct (len (products s) + 1) product_name price category stock))
     else ret tt) ;;
    hook_processed e hook
      ("Processed " ++ str_of e hook ++ " for product " ++ str_of e product_name)
  else unsupported_hook e hook product_hooks.

Definition handle_product_action (e : env) (body : value) : store -> store * response :=
  serve (
    modify incr_requests ;;
    let request_data := get_json_or_empty body in
    try_except
      (hook <- lift (py_get request_data "hook" (VStr "unknown")) ;;
       try_except (product_action_body e request_data hook) (hook_failed e hook))
      (hook_failed e (VStr "unknown"))).

Definition order_hooks : list string := ["order.created"; "order.updated"; "order.paid"].

Definition order_action_body (e : env) (request_data hook : value) : M response :=
  payload <- lift (py_get request_data "payload" (VDict [])) ;;
  lift (py_print hook) ;;
  if py_in_strs hook order_hooks then
    order_id <- lift (py_get payload "id" (VStr "unknown")) ;;
    total <- lift (py_get payload "total" (VFloat (S754_zero false))) ;;
    (if py_eq_str "order.created" hook then
       s <- get ;;
       modify (append_order
                 (mkOrder (len (orders s) + 1) None total (now e 0) Processing)) ;;
       s1 <- get ;;
       revenue <- lift (py_add (total_revenue s1) total) ;;
       modify (set_total_revenue revenue) ;;
       modify incr_orders_count
     else ret tt) ;;
    hook_processed e hook
      ("Processed " ++ str_of e hook ++ " for order " ++ str_of e order_id)
  else unsupported_hook e hook order_hooks.

Definition handle_order_action (e : env) (body : value) : store -> store * response :=
  serve (
    modify incr_requests ;;
    let request_data := get_json_or_empty body in
    try_except
      (hook <- lift (py_get request_data "hook" (VStr "unknown")) ;;
       try_except (order_action_body e request_data hook) (hook_failed e hook))
      (hook_failed e (VStr "unknown"))).

Definition analytics_hooks : list string := ["analytics.calculate"; "report.generate"].

Definition analytics_action_body (e : env) (request_data hook : value) : M response :=
  payload <- lift (py_get request_data "payload" (VDict [])) ;;
  lift (py_print hook) ;;
  if py_in_strs hook analytics_hooks then
    s <- get ;;
    let total_products := len (products s) in
    let total_orders := len (orders s) in
    avg_order_value <-
      lift (py_truediv (total_revenue s) (VInt (Z.max total_orders 1))) ;;
    let analytics_data := VDict
      [ ("total_products", VInt total_products);
        ("total_orders", VInt total_orders);
        ("total_revenue", total_revenue s);
        ("average_order_value", VFloat (round2 avg_order_value));
        ("calculations_performed", VInt (calculations s));
        ("calculated_at", VStr (now e 0));
        ("version", VStr "1.1.0");
        ("new_feature", VStr "Enhanced analytics with version tracking");
        ("performance_metrics", VDict
           [ ("response_time_ms", elapsed e 0);
             ("memory_efficient", VBool true);
             ("optimized", VBool true) ]) ] in
    ret (Json 200 (VDict
      [ ("success", VBool true);
        ("hook", hook);
        ("data", analytics_data);
        ("processing_time_ms", elapsed e 1);
        ("timestamp", VStr (now e 1)) ]))
  else unsupported_hook e hook analytics_hooks.

Definition handle_analytics_action (e : env) (body : value) : store -> store * response :=
  serve (
    modify incr_calculations ;;
    let request_data := get_json_or_empty body in
    try_except
      (hook <- lift (py_get request_data "hook" (VStr "unknown")) ;;
       try_except (analytics_action_body e request_data hook) (hook_failed e hook))
      (hook_failed e (VStr "unknown"))).

(** *** [/execute] *)

(** The interpreter's bound on nested calls; running out of it is a
    [RecursionError]. *)
Definition recursion_limit : nat := 1000.

(** The local [fibonacci] of the [calculate_fibonacci] branch. *)
Fixpoint fibonacci (depth : nat) (num : value) : result value :=
  match depth with
  | O => Raise RecursionError
  | S depth' =>
      let? base := py_le_int num 1 in
      if base then Ok num
      else
        let? n1 := py_sub num (VInt 1) in
        let? f1 := fibonacci depth' n1 in
        let? n2 := py_sub num (VInt 2) in
        let? f2 := fibonacci depth' n2 in
        py_add f1 f2
  end.

Definition dict := list (string * value).

Definition list_products : M dict :=
  modify incr_queries ;;
  s <- get ;;
  ret [ ("action", VStr "list_products");
        ("data", VList (map product_value (products s)));
        ("count", VInt (len (products s)));
        ("success", VBool true) ].

Definition create_order (e : env) (request_data : value) : M dict :=
  order_data <- lift (py_get request_data "data" (VDict [])) ;;
  product_id <- lift (py_get order_data "product_id" (VInt 1)) ;;
  quantity <- lift (py_get order_data "quantity" (VInt 1)) ;;
  s <- get ;;
  match find (fun p => py_eq_int (p_id p) product_id) (products s) with
  | None =>
      ret [ ("action", VStr "create_order");
            ("error", VStr "Product not found");
            ("success", VBool false) ]
  | Some product =>
      total_price <- lift (py_mul (p_price product) quantity) ;;
      let new_order :=
        mkOrder (len (orders s) + 1)
                (Some (mkLink product_id (p_name product) quantity (p_price product)))
                total_price (now e 0) Confirmed in
      modify (append_order new_order) ;;
      s1 <- get ;;
      revenue <- lift (py_add (total_revenue s1) total_price) ;;
      modify (set_total_revenue revenue) ;;
      modify incr_orders_count ;;
      ret [ ("action", VStr "create_order");
            ("data", order_value new_order);
            ("message", VStr "Order created successfully");
            ("success", VBool true) ]
  end.

(** [l[-5:]]. *)
Definition last5 {A : Type} (l : list A) : list A :=
  skipn (List.length l - 5) l.

Definition get_analytics : M dict :=
  s <- get ;;
  let total_products := len (products s) in
  let total_orders := len (orders s) in
  avg_order_value <- lift (py_truediv (total_revenue s) (VInt (Z.max total_orders 1))) ;;
  ret [ ("action", VStr "get_analytics");
        ("data", VDict
           [ ("total_products", VInt total_products);
             ("total_orders", VInt total_orders);
             ("total_revenue", total_revenue s);
             ("average_order_value", VFloat (round2 avg_order_value));
             ("recent_orders", VList (map order_value (last5 (orders s)))) ]);
        ("success", VBool true) ].

Definition calculate_fibonacci (request_data : value) : M dict :=
  modify incr_calculations ;;
  data <- lift (py_get request_data "data" (VDict [])) ;;
  n <- lift (py_get data "n" (VInt 20)) ;;
  n <- lift (py_min n 35) ;;
  fib_result <- lift (fibonacci recursion_limit n) ;;
  s <- get ;;
  ret [ ("action", VStr "calculate_fibonacci");
        ("data", VDict
           [ ("input", n);
             ("result", fib_result);
             ("calculations_performed", VInt (calculations s)) ]);
        ("success", VBool true) ].

Definition simulate_delay (e : env) (request_data : value) : M dict :=
  data <- lift (py_get request_data "data" (VDict [])) ;;
  delay <- lift (py_get data "delay_ms" (VInt 100)) ;;
  delay <- lift (py_min delay 2000) ;;
  secs <- lift (py_truediv delay (VFloat (round_quotient 1000 1))) ;;
  lift (py_sleep secs) ;;
  ret [ ("action", VStr "simulate_delay");
        ("data", VDict
           [ ("requested_delay_ms", delay);
             ("message", VStr ("Simulated " ++ str_of e delay ++ "ms delay")) ]);
        ("success", VBool true) ].

(** Ten draws of [random.randint(1, 100)]. *)
Definition random_numbers (e : env) : list Z :=
  map (fun k => 1 + randint e k mod 100) (seq 0 10).

Definition random_data (e : env) : M dict :=
  let numbers := random_numbers e in
  let total := fold_left Z.add numbers 0 in
  average <- lift (py_truediv (VInt total) (VInt (len numbers))) ;;
  ret [ ("action", VStr "random_data");
        ("data", VDict
           [ ("random_numbers", VList (map VInt numbers));
             ("sum", VInt total);
             ("average", VFloat average);
             ("max", VInt (fold_left Z.max (tl numbers) (hd 0 numbers)));
             ("min", VInt (fold_left Z.min (tl numbers) (hd 0 numbers))) ]);
        ("success", VBool true) ].

Definition available_actions : list string :=
  [ "list_products"; "create_order"; "get_analytics";
    "calculate_fibonacci"; "simulate_delay"; "random_data" ].

Definition unknown_action (e : env) (action : value) : M dict :=
  ret [ ("action", action);
        ("error", VStr ("Unknown action: " ++ str_of e action));
        ("available_actions", VList (map VStr available_actions));
        ("success", VBool false) ].

(** The first statements of the [try] block of [execute], from the
    binding of [action] on, and the [if]/[elif] chain on it. *)
Definition dispatch (e : env) (request_data : value) : M dict :=
  action <- lift (py_get request_data "action" (VStr "default")) ;;
  lift (py_print action) ;;
  if py_eq_str "list_products" action then list_products
  else if py_eq_str "create_order" action then create_order e request_data
  else if py_eq_str "get_analytics" action then get_analytics
  else if py_eq_str "calculate_fibonacci" action then calculate_fibonacci request_data
  else if py_eq_str "simulate_delay" action then simulate_delay e request_data
  else if py_eq_str "random_data" action then random_data e
  else unknown_action e action.

Definition execute (e : env) (body : value) : store -> store * response :=
  serve (
    modify incr_requests ;;
    let request_data := get_json_or_empty body in
    try_except
      (result <- dispatch e request_data ;;
       s <- get ;;
       (* [print(f"Action {action} completed in ...")], with the [action]
          bound at the top of the block *)
       action <- lift (py_get request_data "action" (VStr "default")) ;;
       lift (py_print action) ;;
       ret (Json 200 (VDict
         (result ++
          [ ("timestamp", VStr (now e 1));
            ("processing_time_ms", elapsed e 0);
            ("total_requests", VInt (requests s));
            ("plugin_type", VStr "python") ]))))
      (fun ex =>
         action <- lift (py_get request_data "action" (VStr "unknown")) ;;
         (* [print(f"Error processing request: {e}")]: the message of an
            exception is plain ASCII, so the line is always encoded *)
         ret (Json 500 (VDict
           [ ("action", action);
             ("error", VStr (exn_str e ex));
             ("success", VBool false);
             ("timestamp", VStr (now e 1));
             ("processing_time_ms", elapsed e 0);
             ("plugin_type", VStr "python") ])))).

(** ** Sequences of requests *)

(** The endpoints that touch the store ([/ping], [/benchmark] and
    [/actions] neither read nor write it). *)
Inductive request : Type :=
| Health
| ProductHook (body : value)
| OrderHook (body : value)
| AnalyticsHook (body : value)
| Execute (body : value).

Definition handle (e : env) (r : request) : store -> store * response :=
  match r with
  | Health => health e
  | ProductHook body => handle_product_action e body
  | OrderHook body => handle_order_action e body
  | AnalyticsHook body => handle_analytics_action e body
  | Execute body => execute e body
  end.

(** The requests served one after the other, each with its own
    environment; the responses come back in the same order. *)
Fixpoint run (rs : list (env * request)) (s : store) : store * list response :=
  match rs with
  | [] => (s, [])
  | (e, r) :: rs' =>
      let '(s1, resp) := handle e r s in
      let '(s2, resps) := run rs' s1 in
      (s2, resp :: resps)
  end.

Definition final (rs : list (env * request)) : store := fst (run rs data_store).
Definition responses (rs : list (env * request)) : list response := snd (run rs data_store).

(** The states the process can be in. *)
Inductive reachable : store -> Prop :=
| reachable_init : reachable data_store
| reachable_step : forall s e r, reachable s -> reachable (fst (handle e r s)).

(** ** The endpoints that leave the store alone *)



(** [/ping]. *)
Definition ping (e : env) (s : store) : store * response :=
  (s, Json 200 (VDict
    [ ("message", VStr "pong from Python");
      ("timestamp", VStr (now e 0));
      ("response_time_ms", VInt 1) ])).

(** [sum(i * i for i in range(n))]. *)
Definition sum_of_squares (n : nat) : Z :=
  fold_left Z.add (map (fun i => Z.of_nat i * Z.of_nat i) (seq 0 n)) 0.

(** [/benchmark]. *)
Definition benchmark (e : env) (s : store) : store * response :=
  let result := sum_of_squares 1000 in
  (s, Json 200 (VDict
    [ ("benchmark_result", VInt result);
      ("processing_time_ms", elapsed e 0);
      ("timestamp", VStr (now e 0));
      ("computation", VStr "sum of squares 1-1000") ])).


(** ** Vocabulary of the statements *)

(** The four entries [/execute] appends to every result. *)
Definition envelope (e : env) (s : store) : dict :=
  [ ("timestamp", VStr (now e 1));
    ("processing_time_ms", elapsed e 0);
    ("total_requests", VInt (requests s));
    ("plugin_type", VStr "python") ].

(** An environment to evaluate the handlers in: a stopped clock, a
    generator that always draws its lowest number, strings rendered as
    themselves and nothing else rendered. *)
Definition sample_env : env :=
  mkEnv (fun _ => "2024-01-01T00:00:00")
        (fun _ => VFloat (S754_zero false))
        0
        (fun _ => 0)
        (fun v => match v with VStr s => s | _ => "" end)
        (fun _ => "").

(** A response body that carries an [error] message and [success: False]. *)
Definition failure_body (v : value) : Prop :=
  exists d msg,
    v = VDict d /\
    lookup "error" d = Some (VStr msg) /\
    lookup "success" d = Some (VBool false).

(** The naive recursive Fibonacci function, as the specification names
    it: [fib 0 = 0], [fib 1 = 1], [fib (k+2) = fib (k+1) + fib k]; below
    [0] the argument is returned as it is. *)
Fixpoint fib_nat (k : nat) : Z :=
  match k with
  | O => 0
  | S k' => match k' with
            | O => 1
            | S k'' => fib_nat k' + fib_nat k''
            end
  end.

Definition naive_fib (n : Z) : Z :=
  if n <=? 1 then n else fib_nat (Z.to_nat n).

(** The result of the [calculate_fibonacci] branch for input [n] and
    computed value [r]. *)
Definition fibonacci_result (n r : Z) (s : store) : dict :=
  [ ("action", VStr "calculate_fibonacci");
    ("data", VDict
       [ ("input", VInt n);
         ("result", VInt r);
         ("calculations_performed", VInt (calculations s)) ]);
    ("success", VBool true) ].

(** What one request can do to the products, the orders and the analytics
    aggregate of [s], with the response it then gets: nothing; append one
    product; append one order and add its total to the aggregate; or
    append one order and fail on the addition, which leaves the aggregate
    behind. *)
Inductive effect (s : store) : store -> response -> Prop :=
| effect_none : forall s' resp,
    products s' = products s ->
    orders s' = orders s ->
    total_revenue s' = total_revenue s ->
    orders_count s' = orders_count s ->
    effect s s' resp
| effect_product : forall s' p b,
    products s' = (products s ++ [p])%list ->
    p_id p = len (products s) + 1 ->
    orders s' = orders s ->
    total_revenue s' = total_revenue s ->
    orders_count s' = orders_count s ->
    effect s s' (Json 200 b)
| effect_order : forall s' o b,
    products s' = products s ->
    orders s' = (orders s ++ [o])%list ->
    o_id o = len (orders s) + 1 ->
    py_add (total_revenue s) (o_total_price o) = Ok (total_revenue s') ->
    orders_count s' = orders_count s + 1 ->
    effect s s' (Json 200 b)
| effect_order_failed : forall s' o ex b,
    products s' = products s ->
    orders s' = (orders s ++ [o])%list ->
    py_add (total_revenue s) (o_total_price o) = Raise ex ->
    total_revenue s' = total_revenue s ->
    orders_count s' = orders_count s ->
    effect s s' (Json 500 b).














(** The result of the [get_analytics] branch in store [s], for the
    average it reports. *)
Definition analytics_result (s : store) (average : spec_float) : dict :=
  [ ("action", VStr "get_analytics");
    ("data", VDict
       [ ("total_products", VInt (len (products s)));
         ("total_orders", VInt (len (orders s)));
         ("total_revenue", total_revenue s);
         ("average_order_value", VFloat average);
         ("recent_orders", VList (map order_value (last5 (orders s)))) ]);
    ("success", VBool true) ].

(** An [order.created] webhook call carrying [total]. *)
Definition order_created_hook (total : value) : env * request :=
  (sample_env,
   OrderHook (VDict [ ("hook", VStr "order.created");
                      ("payload", VDict [("total", total)]) ])).

(** A call to [/execute]. *)
Definition execute_call (action : string) (data : dict) : env * request :=
  (sample_env, Execute (VDict [("action", VStr action); ("data", VDict data)])).



(** [/execute] alone: two orders created, one refused, reads in between. *)
Definition execute_trace : list (env * request) :=
  [ execute_call "create_order" [("product_id", VInt 2); ("quantity", VInt 3)];
    execute_call "list_products" [];
    execute_call "create_order" [("product_id", VInt 9)];
    execute_call "create_order" [("product_id", VInt 1)];
    execute_call "get_analytics" [] ].


(** Three orders that total 1. *)
Definition thirds_trace : list (env * request) :=
  [ order_created_hook (VInt 1); order_created_hook (VInt 0); order_created_hook (VInt 0) ].

(** What a [product.created] payload supplies: name, price, category and
    stock, each with the default the handler falls back on. *)
Record product_fields : Type := mkFields {
  f_name : value;
  f_price : value;
  f_category : value;
  f_stock : value
}.

Definition fields_of (p : product) : product_fields :=
  mkFields (p_name p) (p_price p) (p_category p) (p_stock p).

Definition payload_fields (d : dict) : product_fields :=
  mkFields
    (match lookup "name" d with Some v => v | None => VStr "Unknown Product" end)
    (match lookup "price" d with Some v => v | None => VFloat (S754_zero false) end)
    (match lookup "category" d with Some v => v | None => VStr "general" end)
    (match lookup "stock" d with Some v => v | None => VInt 0 end).

Definition product_of (i : Z) (f : product_fields) : product :=
  mkProduct i (f_name f) (f_price f) (f_category f) (f_stock f).

(** The fields a call added to the catalogue, read off the request and
    its response: a [product.created] hook on [/actions/product] that was
    answered with [success: True]. *)
Definition accepted_product (c : env * request) (resp : response) : option product_fields :=
  match snd c, resp with
  | ProductHook body, Json _ (VDict r) =>
      match lookup "success" r,
            py_get (get_json_or_empty body) "hook" (VStr "unknown"),
            py_get (get_json_or_empty body) "payload" (VDict []) with
      | Some (VBool true), Ok hook, Ok (VDict d) =>
          if py_eq_str "product.created" hook then Some (payload_fields d) else None
      | _, _, _ => None
      end
  | _, _ => None
  end.

Definition option_list {A : Type} (o : option A) : list A :=
  match o with
  | Some a => [a]
  | None => []
  end.

(** The products the calls of a sequence created, in call order. *)
Definition created_fields (calls : list ((env * request) * response)) : list product_fields :=
  flat_map (fun cr => option_list (accepted_product (fst cr) (snd cr))) calls.

(** The products after a request, against the request and its response. *)
Definition product_post (s s' : store) (c : env * request) (resp : response) : Prop :=
  products s' =
  (products s ++
   map (product_of (len (products s) + 1)) (option_list (accepted_product c resp)))%list.

(** A [product.created] webhook call carrying a price and a stock. *)
Definition product_created_hook (price stock : value) : env * request :=
  (sample_env,
   ProductHook (VDict [ ("hook", VStr "product.created");
                        ("payload", VDict [ ("name", VStr "Mystery Box");
                                            ("price", price);
                                            ("stock", stock) ]) ])).

(** A product with a negative price and a stock that is not a number. *)
Definition unchecked_trace : list (env * request) :=
  [ product_created_hook (VInt (-5)) (VStr "many") ].

(** [1, 2, ..., n] for a list of [n] entries. *)
Definition positions {A : Type} (l : list A) : list Z :=
  map Z.of_nat (seq 1 (List.length l)).

(** The catalogue a sequence of requests makes: the fields of the seeded
    products, then those of the products the calls created. *)
Definition catalogue (rs : list (env * request)) : list product_fields :=
  (map fields_of (products data_store)
   ++ created_fields (combine rs (responses rs)))%list.

(** The text of the JSON string ["\ud800"]: one lone surrogate. *)
Definition lone_surrogate : string :=
  String (Ascii.ascii_of_nat 237)
    (String (Ascii.ascii_of_nat 160)
       (String (Ascii.ascii_of_nat 128) EmptyString)).

(** The body of the answer of [/execute] to an exception. *)
Definition execute_error (e : env) (action : value) (ex : exn) : response :=
  Json 500 (VDict
    [ ("action", action);
      ("error", VStr (exn_str e ex));
      ("success", VBool false);
      ("timestamp", VStr (now e 1));
      ("processing_time_ms", elapsed e 0);
      ("plugin_type", VStr "python") ]).

(** ** Vocabulary of the further statements *)

(** The status an order was given goes with the path that created it:
    [processing] for the webhook's orders, which carry no product,
    [confirmed] for the orders of [/execute]. *)
Definition status_by_path (o : order) : Prop :=
  match o_link o with
  | None => o_status o = Processing
  | Some _ => o_status o = Confirmed
  end.

(** The orders after a request: as before, or one more, numbered after
    the ones before it and counted at most once. *)
Definition order_post (s s' : store) : Prop :=
  (orders s' = orders s /\ orders_count s' = orders_count s) \/
  (exists o,
     orders s' = (orders s ++ [o])%list /\
     o_id o = len (orders s) + 1 /\
     status_by_path o /\
     (orders_count s' = orders_count s \/ orders_count s' = orders_count s + 1)).

(** An [order.created] hook with a total beyond the range of a float. *)
Definition huge_total_trace : list (env * request) :=
  [ order_created_hook (VInt (10 ^ 400)) ].



(** Whether [action] of the request document is the string [name]. *)
Definition action_is (name : string) (body : value) : bool :=
  match py_get (get_json_or_empty body) "action" (VStr "default") with
  | Ok a => py_eq_str name a
  | Raise _ => false
  end.

(** What one request adds to each counter. *)
Definition counted_request (r : request) : Z :=
  match r with
  | AnalyticsHook _ => 0
  | _ => 1
  end.

Definition counted_calculation (r : request) : Z :=
  match r with
  | AnalyticsHook _ => 1
  | Execute body => if action_is "calculate_fibonacci" body then 1 else 0
  | _ => 0
  end.

Definition counted_query (r : request) : Z :=
  match r with
  | Execute body => if action_is "list_products" body then 1 else 0
  | _ => 0
  end.

Definition counter_post (s s' : store) (r : request) : Prop :=
  requests s' = requests s + counted_request r /\
  calculations s' = calculations s + counted_calculation r /\
  queries s' = queries s + counted_query r.

Definition total (l : list Z) : Z := fold_right Z.add 0 l.

(** The order [create_order] builds for product [p] under [product_id]. *)
Definition linked_order (e : env) (s : store) (product_id quantity : value)
    (p : product) (total : value) : order :=
  mkOrder (len (orders s) + 1)
          (Some (mkLink product_id (p_name p) quantity (p_price p)))
          total (now e 0) Confirmed.

(** [1000.0] and [2.0]. *)
Definition thousand : spec_float := round_quotient 1000 1.
Definition two_seconds : spec_float := round_quotient 2 1.

(** A delay of [k] milliseconds is slept through, and lasts at most two
    seconds. *)
Definition sleeps_at_most_two (k : Z) : bool :=
  match py_truediv (VInt k) (VFloat thousand) with
  | Ok secs =>
      match py_sleep secs with
      | Ok _ => SFleb secs two_seconds
      | Raise _ => false
      end
  | Raise _ => false
  end.

(** The result of the [simulate_delay] branch for a delay of [k] ms. *)
Definition delay_result (e : env) (k : Z) : dict :=
  [ ("action", VStr "simulate_delay");
    ("data", VDict
       [ ("requested_delay_ms", VInt k);
         ("message", VStr ("Simulated " ++ str_of e (VInt k) ++ "ms delay")) ]);
    ("success", VBool true) ].

(** The order the [order.created] hook builds for [total]. *)
Definition hook_order (e : env) (s : store) (total : value) : order :=
  mkOrder (len (orders s) + 1) None total (now e 0) Processing.

(** The acknowledgment of a processed order hook. *)
Definition order_ack (e : env) (hook order_id : value) : response :=
  Json 200 (VDict
    [ ("success", VBool true);
      ("hook", hook);
      ("message",
       VStr ("Processed " ++ str_of e hook ++ " for order " ++ str_of e order_id));
      ("processing_time_ms", elapsed e 0);
      ("timestamp", VStr (now e 1)) ]).

(** The result of the [random_data] branch for the numbers drawn. *)
Definition random_result (numbers : list Z) (sum : Z) (average : spec_float)
    (highest lowest : Z) : dict :=
  [ ("action", VStr "random_data");
    ("data", VDict
       [ ("random_numbers", VList (map VInt numbers));
         ("sum", VInt sum);
         ("average", VFloat average);
         ("max", VInt highest);
         ("min", VInt lowest) ]);
    ("success", VBool true) ].

(** Dividing [t] by ten gives a finite float. *)
Definition tenth_is_finite (t : Z) : bool :=
  negb (is_infinite (round_quotient t 10)).

Definition is_mapping (v : value) : bool :=
  match v with
  | VDict _ => true
  | _ => false
  end.

(** Six orders through the webhook, with totals 10 to 60. *)
Definition six_orders_trace : list (env * request) :=
  map (fun t => order_created_hook (VInt t)) [10; 20; 30; 40; 50; 60].

(** ** Properties *)

(** Case analysis on the next test of a handler. *)
Ltac break_inner x :=
  lazymatch x with
  | context [match ?y with _ => _ end] => break_inner y
  | _ => destruct x eqn:?
  end.

Ltac break_match :=
  match goal with
  | |- context [match ?x with _ => _ end] => break_inner x
  end.

Ltac run_handler :=
  unfold serve, bind, try_except, lift, ret, modify, get;
  cbv beta iota;
  repeat (break_match; cbv beta iota; cbn [fst snd]).

Ltac unfold_handlers :=
  unfold handle, health, handle_product_action, handle_order_action,
    handle_analytics_action, execute, dispatch, list_products, create_order,
    get_analytics, calculate_fibonacci, simulate_delay, random_data,
    unknown_action, product_action_body, order_action_body,
    analytics_action_body, hook_processed, unsupported_hook, hook_failed.

(** No counter of [s'] is below its value in [s]. *)
Definition counters_le (s s' : store) : Prop :=
  requests s <= requests s' /\
  calculations s <= calculations s' /\
  queries s <= queries s'.

Lemma counters_le_refl : forall s, counters_le s s.
Proof. intros s; unfold counters_le; lia. Qed.

Lemma counters_le_trans : forall s1 s2 s3,
  counters_le s1 s2 -> counters_le s2 s3 -> counters_le s1 s3.
Proof. unfold counters_le; intros; lia. Qed.

Ltac counters := unfold counters_le; cbn; lia.

Lemma execute_requests : forall e body s,
  requests (fst (execute e body s)) = requests s + 1 /\
  counters_le s (fst (execute e body s)).
Proof.
  intros e body s. unfold_handlers. run_handler; counters.
Qed.

Lemma product_hook_requests : forall e body s,
  requests (fst (handle_product_action e body s)) = requests s + 1 /\
  counters_le s (fst (handle_product_action e body s)).
Proof.
  intros e body s. unfold_handlers. run_handler; counters.
Qed.

Lemma order_hook_requests : forall e body s,
  requests (fst (handle_order_action e body s)) = requests s + 1 /\
  counters_le s (fst (handle_order_action e body s)).
Proof.
  intros e body s. unfold_handlers. run_handler; counters.
Qed.

Lemma analytics_hook_calculations : forall e body s,
  requests (fst (handle_analytics_action e body s)) = requests s /\
  calculations (fst (handle_analytics_action e body s)) = calculations s + 1 /\
  counters_le s (fst (handle_analytics_action e body s)).
Proof.
  intros e body s. unfold_handlers. run_handler; counters.
Qed.

Lemma handle_counters_le : forall e r s, counters_le s (fst (handle e r s)).
Proof.
  intros e [ | body | body | body | body] s; cbn [handle].
  - unfold health. run_handler. counters.
  - apply product_hook_requests.
  - apply order_hook_requests.
  - apply analytics_hook_calculations.
  - apply execute_requests.
Qed.

Lemma run_cons : forall e r rs s,
  run ((e, r) :: rs) s =
  (fst (run rs (fst (handle e r s))), snd (handle e r s) :: snd (run rs (fst (handle e r s)))).
Proof.
  intros. cbn [run]. destruct (handle e r s) as [s1 resp]. cbn [fst snd].
  destruct (run rs s1); reflexivity.
Qed.

Lemma run_counters_le : forall rs s, counters_le s (fst (run rs s)).
Proof.
  induction rs as [ | [e r] rs IH]; intros s.
  - apply counters_le_refl.
  - rewrite run_cons. cbn [fst].
    eapply counters_le_trans; [apply handle_counters_le | apply IH].
Qed.

(** C10. Every call to [/execute], [/actions/product] and [/actions/order]
    adds exactly one to the [requests] counter, whatever the body and
    whatever the outcome; [/actions/analytics] adds one to [calculations]
    and leaves [requests] alone; and over any sequence of requests no
    counter goes down. *)
Theorem counters_per_request : forall e body s,
  requests (fst (execute e body s)) = requests s + 1 /\
  requests (fst (handle_product_action e body s)) = requests s + 1 /\
  requests (fst (handle_order_action e body s)) = requests s + 1 /\
  (requests (fst (handle_analytics_action e body s)) = requests s /\
   calculations (fst (handle_analytics_action e body s)) = calculations s + 1) /\
  (forall rs, counters_le s (fst (run rs s))).
Proof.
  intros e body s.
  split; [apply execute_requests | ].
  split; [apply product_hook_requests | ].
  split; [apply order_hook_requests | ].
  split; [ split; apply analytics_hook_calculations | ].
  intros rs. apply run_counters_le.
Qed.

(** *** Reading a request body *)

Lemma lookup_some_nonempty : forall k (d : dict) v,
  lookup k d = Some v -> get_json_or_empty (VDict d) = VDict d.
Proof.
  intros k [ | p d] v H; [discriminate | reflexivity].
Qed.

Lemma py_get_found : forall d k v dflt,
  lookup k d = Some v -> py_get (VDict d) k dflt = Ok v.
Proof. intros d k v dflt H; cbn; rewrite H; reflexivity. Qed.


Lemma find_no_match : forall (A : Type) (f : A -> bool) (l : list A),
  (forall x, In x l -> f x = false) -> find f l = None.
Proof.
  induction l as [ | x l IH]; intros H; cbn; [reflexivity | ].
  rewrite (H x (or_introl eq_refl)). apply IH. intros y Hy. apply H. right; exact Hy.
Qed.

(** A line that shows a string literal of the source is always encoded. *)
Ltac printed :=
  repeat match goal with
         | |- context [py_print (VStr ?s)] =>
             change (py_print (VStr s)) with (@Ok unit tt)
         end.

(** The names in a list of literals that can all be printed can be
    printed. *)
Lemma member_printed : forall h l,
  py_in_strs (VStr h) l = true ->
  forallb (fun x => negb (has_surrogate x)) l = true ->
  py_print (VStr h) = Ok tt.
Proof.
  intros h l. unfold py_in_strs. induction l as [ | x l IH]; cbn [existsb forallb py_eq_str].
  - discriminate.
  - intros Hin Hall. apply andb_prop in Hall. destruct Hall as [Hx Hall].
    destruct (String.eqb_spec x h) as [-> | _].
    + apply negb_true_iff in Hx. cbn [py_print]. rewrite Hx. reflexivity.
    + exact (IH Hin Hall).
Qed.


(** [/execute] around its dispatch, for an action string that can be
    printed. *)
Lemma execute_of_dispatch : forall e rd a s,
  lookup "action" rd = Some (VStr a) ->
  has_surrogate a = false ->
  execute e (VDict rd) s =
  match dispatch e (VDict rd) (incr_requests s) with
  | (s', Ok result) => (s', Json 200 (VDict (result ++ envelope e s')))
  | (s', Raise ex) => (s', execute_error e (VStr a) ex)
  end.
Proof.
  intros e rd a s Hact Hprint.
  unfold execute, serve, bind, try_except, modify, get, ret, lift.
  rewrite (lookup_some_nonempty _ _ _ Hact).
  destruct (dispatch e (VDict rd) (incr_requests s)) as [s' [result | ex]].
  - rewrite (py_get_found _ _ _ _ Hact). cbn [py_print]. rewrite Hprint. reflexivity.
  - rewrite (py_get_found _ _ _ _ Hact). reflexivity.
Qed.




(** C2. [create_order] on a payload whose [product_id] equals the id of no
    stored product yields [success: False] with the error
    "Product not found" and writes nothing: the action leaves the store
    (products, orders, analytics aggregate and counters) as it found it,
    the only write of the whole [/execute] call being the count of the
    request that precedes the dispatch. *)
Theorem create_order_unknown_product : forall e s rd d,
  lookup "action" rd = Some (VStr "create_order") ->
  py_get (VDict rd) "data" (VDict []) = Ok (VDict d) ->
  (forall p, In p (products s) ->
     py_eq_int (p_id p)
       (match lookup "product_id" d with Some v => v | None => VInt 1 end) = false) ->
  let result :=
    [ ("action", VStr "create_order");
      ("error", VStr "Product not found");
      ("success", VBool false) ] in
  create_order e (VDict rd) s = (s, Ok result) /\
  dispatch e (VDict rd) s = (s, Ok result) /\
  execute e (VDict rd) s =
    (incr_requests s, Json 200 (VDict (result ++ envelope e (incr_requests s)))).
Proof.
  intros e s rd d Hact Hdata Hnone result.
  assert (Hc : forall s0, products s0 = products s ->
                          create_order e (VDict rd) s0 = (s0, Ok result)).
  { intros s0 Hp. unfold create_order, bind, lift, get.
    rewrite Hdata. cbn [py_get]. rewrite Hp, find_no_match; [reflexivity | ].
    intros p Hin. apply Hnone, Hin. }
  assert (Hd : forall s0, products s0 = products s ->
                          dispatch e (VDict rd) s0 = (s0, Ok result)).
  { intros s0 Hp. unfold dispatch, bind, lift.
    rewrite (py_get_found _ _ _ _ Hact). printed.
    cbn [py_eq_str String.eqb Ascii.eqb Bool.eqb].
    apply Hc, Hp. }
  split; [apply Hc; reflexivity | ].
  split; [apply Hd; reflexivity | ].
  rewrite (execute_of_dispatch _ _ _ _ Hact eq_refl), Hd by reflexivity. reflexivity.
Qed.

Lemma create_order_unknown_product_witness :
  execute sample_env
    (VDict [("action", VStr "create_order"); ("data", VDict [("product_id", VInt 4)])])
    data_store
  = (incr_requests data_store,
     Json 200 (VDict
       [ ("action", VStr "create_order");
         ("error", VStr "Product not found");
         ("success", VBool false);
         ("timestamp", VStr "2024-01-01T00:00:00");
         ("processing_time_ms", VFloat (S754_zero false));
         ("total_requests", VInt 1);
         ("plugin_type", VStr "python") ])).
Proof.
  refine (proj2 (proj2 (create_order_unknown_product sample_env data_store
    [("action", VStr "create_order"); ("data", VDict [("product_id", VInt 4)])]
    [("product_id", VInt 4)] _ _ _))).
  - reflexivity.
  - reflexivity.
  - cbn. intros p H.
    repeat (destruct H as [H | H]; [subst p; reflexivity | ]). destruct H.
Defined.

Lemma py_get_attribute_error : forall v k dflt,
  (forall d, v <> VDict d) -> py_get v k dflt = Raise AttributeError.
Proof.
  intros v k dflt H. destruct v as [ | | | | | | d]; try reflexivity.
  exfalso. exact (H d eq_refl).
Qed.

(** C7, as the code has it. The accepted hooks that create nothing
    ([product.updated], [order.updated], [order.paid]) write nothing but
    the count of the request, whatever the payload: products, orders (and
    with them every order's status), the analytics aggregate and the
    other counters are those of before.  The response is the success
    acknowledgment for a payload that is a mapping or is absent; for any
    other payload the lookup in it raises, and the response is the
    failure under status 500. *)
Theorem noncreating_hooks_acknowledged : forall e s b h,
  lookup "hook" b = Some (VStr h) ->
  (h = "product.updated" ->
   fst (handle_product_action e (VDict b) s) = incr_requests s /\
   (forall d, py_get (VDict b) "payload" (VDict []) = Ok (VDict d) ->
     snd (handle_product_action e (VDict b) s) =
     Json 200 (VDict
       [ ("success", VBool true);
         ("hook", VStr h);
         ("message",
          VStr ("Processed " ++ str_of e (VStr h) ++ " for product " ++
                str_of e (match lookup "name" d with
                          | Some v => v
                          | None => VStr "Unknown Product"
                          end)));
         ("processing_time_ms", elapsed e 0);
         ("timestamp", VStr (now e 1)) ])) /\
   (forall p, lookup "payload" b = Some p -> (forall d, p <> VDict d) ->
     snd (handle_product_action e (VDict b) s) =
     Json 500 (VDict
       [ ("success", VBool false);
         ("error", VStr (exn_str e AttributeError));
         ("hook", VStr h) ]))) /\
  (h = "order.updated" \/ h = "order.paid" ->
   fst (handle_order_action e (VDict b) s) = incr_requests s /\
   (forall d, py_get (VDict b) "payload" (VDict []) = Ok (VDict d) ->
     snd (handle_order_action e (VDict b) s) =
     Json 200 (VDict
       [ ("success", VBool true);
         ("hook", VStr h);
         ("message",
          VStr ("Processed " ++ str_of e (VStr h) ++ " for order " ++
                str_of e (match lookup "id" d with
                          | Some v => v
                          | None => VStr "unknown"
                          end)));
         ("processing_time_ms", elapsed e 0);
         ("timestamp", VStr (now e 1)) ])) /\
   (forall p, lookup "payload" b = Some p -> (forall d, p <> VDict d) ->
     snd (handle_order_action e (VDict b) s) =
     Json 500 (VDict
       [ ("success", VBool false);
         ("error", VStr (exn_str e AttributeError));
         ("hook", VStr h) ]))).
Proof.
  intros e s b h Hhook. split.
  - intros ->.
    unfold handle_product_action, product_action_body, hook_processed, hook_failed.
    rewrite (lookup_some_nonempty _ _ _ Hhook).
    unfold serve, bind, try_except, lift, ret, modify, get.
    rewrite (py_get_found _ _ _ _ Hhook). split; [ | split].
    + cbn [py_in_strs product_hooks existsb py_eq_str String.eqb Ascii.eqb Bool.eqb orb].
      destruct (py_get (VDict b) "payload" (VDict [])) as [p | ex]; [ | reflexivity].
      printed.
      destruct (py_get p "id" (VStr "unknown")); [ | reflexivity].
      destruct (py_get p "name" (VStr "Unknown Product")); reflexivity.
    + intros d ->. reflexivity.
    + intros p Hp Hnot. rewrite (py_get_found _ _ _ _ Hp). printed.
      cbn [py_in_strs product_hooks existsb py_eq_str String.eqb Ascii.eqb Bool.eqb orb].
      rewrite (py_get_attribute_error _ _ _ Hnot). reflexivity.
  - intros Hh.
    unfold handle_order_action, order_action_body, hook_processed, hook_failed.
    rewrite (lookup_some_nonempty _ _ _ Hhook).
    unfold serve, bind, try_except, lift, ret, modify, get.
    rewrite (py_get_found _ _ _ _ Hhook). split; [ | split].
    + destruct (py_get (VDict b) "payload" (VDict [])) as [p | ex];
        [ | destruct Hh as [-> | ->]; reflexivity].
      destruct Hh as [-> | ->]; printed;
        cbn [py_in_strs order_hooks existsb py_eq_str String.eqb Ascii.eqb Bool.eqb orb];
        (destruct (py_get p "id" (VStr "unknown")); [ | reflexivity]);
        (destruct (py_get p "total" (VFloat (S754_zero false))); reflexivity).
    + intros d ->. destruct Hh as [-> | ->]; reflexivity.
    + intros p Hp Hnot. rewrite (py_get_found _ _ _ _ Hp).
      destruct Hh as [-> | ->]; printed;
        cbn [py_in_strs order_hooks existsb py_eq_str String.eqb Ascii.eqb Bool.eqb orb];
        rewrite (py_get_attribute_error _ _ _ Hnot); reflexivity.
Qed.

Lemma noncreating_hooks_acknowledged_witness :
  handle_order_action sample_env
    (VDict [("hook", VStr "order.paid"); ("payload", VDict [("id", VStr "A-7")])]) data_store
  = (incr_requests data_store,
     Json 200 (VDict
       [ ("success", VBool true);
         ("hook", VStr "order.paid");
         ("message", VStr "Processed order.paid for order A-7");
         ("processing_time_ms", VFloat (S754_zero false));
         ("timestamp", VStr "2024-01-01T00:00:00") ])).
Proof.
  pose proof (proj2 (noncreating_hooks_acknowledged sample_env data_store
    [("hook", VStr "order.paid"); ("payload", VDict [("id", VStr "A-7")])]
    "order.paid" eq_refl) (or_intror eq_refl)) as (Hs & Hr & _).
  specialize (Hr [("id", VStr "A-7")] eq_refl).
  rewrite (surjective_pairing (handle_order_action _ _ _)), Hs, Hr. reflexivity.
Defined.

(** C7 fails as stated: [order.paid] with the payload [null] is answered
    with the failure under status 500, not with an acknowledgment; the
    store still changes by the request count alone. *)
Lemma null_payload_not_acknowledged :
  handle_order_action sample_env
    (VDict [("hook", VStr "order.paid"); ("payload", VNone)]) data_store
  = (incr_requests data_store,
     Json 500 (VDict
       [ ("success", VBool false);
         ("error", VStr (exn_str sample_env AttributeError));
         ("hook", VStr "order.paid") ])).
Proof. reflexivity. Qed.

(** *** Status codes *)

Lemma failure_body_unsupported : forall e hook supported s,
  exists b, snd (unsupported_hook e hook supported s) = Ok (Json 400 b) /\ failure_body b.
Proof.
  intros. eexists; split; [reflexivity | ].
  eexists _, _; repeat split; reflexivity.
Qed.


(** What a webhook endpoint answers, given how its [try] block ends. *)
Lemma webhook_outcome :
  forall (e : env) (rd : value) (incr : store -> store)
         (body : env -> value -> value -> M response) (s : store),
    let served := serve (modify incr ;;
                         try_except
                           (hook <- lift (py_get rd "hook" (VStr "unknown")) ;;
                            try_except (body e rd hook) (hook_failed e hook))
                           (hook_failed e (VStr "unknown"))) s in
    (forall ex, py_get rd "hook" (VStr "unknown") = Raise ex ->
       exists b, snd served = Json 500 b /\ failure_body b) /\
    (forall hook, py_get rd "hook" (VStr "unknown") = Ok hook ->
       (forall ex, snd (body e rd hook (incr s)) = Raise ex ->
          exists b, snd served = Json 500 b /\ failure_body b) /\
       (forall r, snd (body e rd hook (incr s)) = Ok r -> snd served = r)).
Proof.
  intros e rd incr body s served. subst served.
  unfold serve, bind, try_except, lift, modify. split.
  - intros ex ->. cbn.
    eexists; split; [reflexivity | ]. eexists _, _; repeat split; reflexivity.
  - intros hook ->. split.
    + intros ex H. destruct (body e rd hook (incr s)) as [s' [r | ex']]; cbn in H;
        [discriminate | ].
      cbn. eexists; split; [reflexivity | ]. eexists _, _; repeat split; reflexivity.
    + intros r H. destruct (body e rd hook (incr s)) as [s' [r' | ex']]; cbn in H;
        [ | discriminate].
      cbn. congruence.
Qed.

Lemma body_unsupported :
  forall e rd hook s,
    py_get rd "hook" (VStr "unknown") = Ok hook ->
    py_print hook = Ok tt ->
    (py_in_strs hook product_hooks = false ->
     product_action_body e rd hook s = unsupported_hook e hook product_hooks s) /\
    (py_in_strs hook order_hooks = false ->
     order_action_body e rd hook s = unsupported_hook e hook order_hooks s) /\
    (py_in_strs hook analytics_hooks = false ->
     analytics_action_body e rd hook s = unsupported_hook e hook analytics_hooks s).
Proof.
  intros e rd hook s Hhook Hprint.
  assert (Hp : exists p, py_get rd "payload" (VDict []) = Ok p).
  { destruct rd; try discriminate. cbn. eauto. }
  destruct Hp as [p Hp].
  unfold product_action_body, order_action_body, analytics_action_body, bind, lift.
  rewrite Hp, Hprint. repeat split; intros ->; reflexivity.
Qed.

(** C6, as the code has it. An unsupported hook that standard output can
    encode is answered by its webhook endpoint with status 400 and a body
    carrying [error] and [success: False]; an unknown action that can be
    encoded is answered by [/execute] with such a body too, but under
    status 200; and an exception raised inside a handler's [try] block,
    that of a logging [print] included, is answered with status 500. *)
Theorem error_statuses : forall e body s,
  let rd := get_json_or_empty body in
  (forall hook, py_get rd "hook" (VStr "unknown") = Ok hook ->
     py_print hook = Ok tt ->
     (py_in_strs hook product_hooks = false ->
      exists b, snd (handle_product_action e body s) = Json 400 b /\ failure_body b) /\
     (py_in_strs hook order_hooks = false ->
      exists b, snd (handle_order_action e body s) = Json 400 b /\ failure_body b) /\
     (py_in_strs hook analytics_hooks = false ->
      exists b, snd (handle_analytics_action e body s) = Json 400 b /\ failure_body b)) /\
  (forall action, py_get rd "action" (VStr "default") = Ok action ->
     py_print action = Ok tt ->
     py_in_strs action available_actions = false ->
     exists b, snd (execute e body s) = Json 200 b /\ failure_body b) /\
  (forall ex,
     (snd (dispatch e rd (incr_requests s)) = Raise ex ->
      status_of (snd (execute e body s)) = 500) /\
     (py_get rd "hook" (VStr "unknown") = Raise ex ->
      status_of (snd (handle_product_action e body s)) = 500 /\
      status_of (snd (handle_order_action e body s)) = 500 /\
      status_of (snd (handle_analytics_action e body s)) = 500) /\
     (forall hook, py_get rd "hook" (VStr "unknown") = Ok hook ->
        (snd (product_action_body e rd hook (incr_requests s)) = Raise ex ->
         status_of (snd (handle_product_action e body s)) = 500) /\
        (snd (order_action_body e rd hook (incr_requests s)) = Raise ex ->
         status_of (snd (handle_order_action e body s)) = 500) /\
        (snd (analytics_action_body e rd hook (incr_calculations s)) = Raise ex ->
         status_of (snd (handle_analytics_action e body s)) = 500))).
Proof.
  intros e body s rd.
  pose proof (webhook_outcome e rd incr_requests product_action_body s) as [Pr Pb].
  pose proof (webhook_outcome e rd incr_requests order_action_body s) as [Or Ob].
  pose proof (webhook_outcome e rd incr_calculations analytics_action_body s) as [Ar Ab].
  change (serve _ s) with (handle_product_action e body s) in Pr, Pb.
  change (serve _ s) with (handle_order_action e body s) in Or, Ob.
  change (serve _ s) with (handle_analytics_action e body s) in Ar, Ab.
  split; [ | split].
  - intros hook Hhook Hprint.
    destruct (Pb hook Hhook) as [_ Pok], (Ob hook Hhook) as [_ Ook],
             (Ab hook Hhook) as [_ Aok].
    destruct (body_unsupported e rd hook (incr_requests s) Hhook Hprint) as (Up & Uo & _).
    destruct (body_unsupported e rd hook (incr_calculations s) Hhook Hprint)
      as (_ & _ & Ua).
    repeat split; intros Hout.
    + destruct (failure_body_unsupported e hook product_hooks (incr_requests s))
        as (b & Hb & Hf).
      exists b; split; [ | exact Hf]. apply Pok. rewrite Up by exact Hout. exact Hb.
    + destruct (failure_body_unsupported e hook order_hooks (incr_requests s))
        as (b & Hb & Hf).
      exists b; split; [ | exact Hf]. apply Ook. rewrite Uo by exact Hout. exact Hb.
    + destruct (failure_body_unsupported e hook analytics_hooks (incr_calculations s))
        as (b & Hb & Hf).
      exists b; split; [ | exact Hf]. apply Aok. rewrite Ua by exact Hout. exact Hb.
  - intros action Hact Hprint Hout.
    unfold execute, dispatch, serve, bind, try_except, lift, modify, get, ret.
    fold rd. rewrite Hact, Hprint.
    cbn [py_in_strs available_actions existsb] in Hout.
    repeat (apply orb_false_elim in Hout; destruct Hout as [? Hout]).
    repeat match goal with H : py_eq_str _ action = false |- _ => rewrite H; clear H end.
    cbn. eexists; split; [reflexivity | ]. eexists _, _; repeat split; reflexivity.
  - intros ex. split; [ | split].
    + intros Hraise.
      unfold execute, serve, bind, try_except, modify, lift, ret.
      cbv zeta. fold rd.
      destruct (dispatch e rd (incr_requests s)) as [s' [r | ex']]; cbn in Hraise;
        [discriminate | ].
      destruct (py_get rd "action" (VStr "unknown")); reflexivity.
    + intros Hraise.
      destruct (Pr ex Hraise) as (b1 & -> & _), (Or ex Hraise) as (b2 & -> & _),
               (Ar ex Hraise) as (b3 & -> & _).
      repeat split.
    + intros hook Hhook.
      destruct (Pb hook Hhook) as [Pex _], (Ob hook Hhook) as [Oex _],
               (Ab hook Hhook) as [Aex _].
      repeat split; intros Hraise.
      * destruct (Pex ex Hraise) as (b & -> & _). reflexivity.
      * destruct (Oex ex Hraise) as (b & -> & _). reflexivity.
      * destruct (Aex ex Hraise) as (b & -> & _). reflexivity.
Qed.

(** C6 fails as stated, twice over: an unknown action on [/execute] is
    answered with status 200, not 400; and an unsupported hook that
    cannot be printed is answered with status 500, not 400. *)
Lemma unknown_action_is_not_400 :
  ~ (forall e s a,
       ~ In a available_actions ->
       status_of (snd (execute e (VDict [("action", VStr a)]) s)) = 400) /\
  (py_in_strs (VStr lone_surrogate) product_hooks = false /\
   status_of (snd (handle_product_action sample_env
                     (VDict [("hook", VStr lone_surrogate)]) data_store)) = 500).
Proof.
  split; [ | split; reflexivity].
  intros H.
  specialize (H sample_env data_store "bogus").
  cbn in H. assert (Hs : 200 = 400); [ | discriminate Hs].
  apply H. intros Hin.
  repeat (destruct Hin as [Hin | Hin]; [discriminate Hin | ]). exact Hin.
Qed.

(** *** Fibonacci *)

Lemma naive_fib_base : forall n, n <= 1 -> naive_fib n = n.
Proof.
  intros n H. unfold naive_fib.
  destruct (Z.leb_spec n 1); [reflexivity | lia].
Qed.

Lemma naive_fib_nat : forall n, 0 <= n -> naive_fib n = fib_nat (Z.to_nat n).
Proof.
  intros n H. unfold naive_fib. destruct (Z.leb_spec n 1); [ | reflexivity].
  assert (Hn : n = 0 \/ n = 1) by lia. destruct Hn as [-> | ->]; reflexivity.
Qed.

Lemma naive_fib_step : forall n,
  1 < n -> naive_fib n = naive_fib (n - 1) + naive_fib (n - 2).
Proof.
  intros n H. rewrite !naive_fib_nat by lia.
  replace (Z.to_nat n) with (S (S (Z.to_nat (n - 2)))) by lia.
  replace (Z.to_nat (n - 1)) with (S (Z.to_nat (n - 2))) by lia.
  reflexivity.
Qed.

(** With enough depth left the local function returns, and returns the
    naive Fibonacci number. *)
Lemma fibonacci_int : forall depth n,
  (Z.to_nat n < depth)%nat ->
  fibonacci depth (VInt n) = Ok (VInt (naive_fib n)).
Proof.
  induction depth as [ | depth IH]; intros n Hd; [lia | ].
  cbn [fibonacci py_le_int rbind].
  destruct (Z.leb_spec n 1) as [Hle | Hgt].
  - rewrite naive_fib_base by exact Hle. reflexivity.
  - cbn [py_sub as_num num_sub rbind of_num].
    rewrite (IH (n - 1)) by lia. cbn [rbind].
    rewrite (IH (n - 2)) by lia. cbn [rbind py_add as_num num_add of_num].
    rewrite (naive_fib_step n) by exact Hgt. reflexivity.
Qed.

(** C4. For an integer input [n], [calculate_fibonacci] clamps [n] to
    [min(n, 35)] and returns the naive recursive Fibonacci function of the
    clamped input: the function that returns its argument when it is at
    most 1 and the sum of its values at the two predecessors above, and
    whose value at 10 is 55. *)
Theorem calculate_fibonacci_int : forall e s rd d n,
  lookup "action" rd = Some (VStr "calculate_fibonacci") ->
  py_get (VDict rd) "data" (VDict []) = Ok (VDict d) ->
  lookup "n" d = Some (VInt n) ->
  let s1 := incr_calculations s in
  let result := fibonacci_result (Z.min n 35) (naive_fib (Z.min n 35)) s1 in
  (calculate_fibonacci (VDict rd) s = (s1, Ok result) /\
   execute e (VDict rd) s =
     (incr_calculations (incr_requests s),
      Json 200 (VDict (fibonacci_result (Z.min n 35) (naive_fib (Z.min n 35))
                         (incr_calculations (incr_requests s))
                       ++ envelope e (incr_calculations (incr_requests s)))))) /\
  (forall m, m <= 1 -> naive_fib m = m) /\
  (forall m, 1 < m -> naive_fib m = naive_fib (m - 1) + naive_fib (m - 2)) /\
  naive_fib 10 = 55.
Proof.
  intros e s rd d n Hact Hdata Hn s1 result.
  assert (Hc : forall s0, calculate_fibonacci (VDict rd) s0 =
                 (incr_calculations s0,
                  Ok (fibonacci_result (Z.min n 35) (naive_fib (Z.min n 35))
                        (incr_calculations s0)))).
  { intros s0. unfold calculate_fibonacci, bind, lift, modify, get, ret.
    rewrite Hdata. cbn [py_get]. rewrite Hn.
    unfold py_min. cbn [py_int_lt rbind].
    assert (Hmin : (if 35 <? n then VInt 35 else VInt n) = VInt (Z.min n 35)).
    { destruct (Z.ltb_spec 35 n); f_equal; lia. }
    rewrite Hmin, fibonacci_int; [reflexivity | ].
    unfold recursion_limit. lia. }
  split; [split | ].
  - apply Hc.
  - unfold execute, dispatch, serve, bind, try_except, lift, modify, get, ret.
    rewrite (lookup_some_nonempty _ _ _ Hact), (py_get_found _ _ _ _ Hact).
    cbn [py_eq_str String.eqb Ascii.eqb Bool.eqb].
    rewrite Hc. reflexivity.
  - split; [exact naive_fib_base | ]. split; [exact naive_fib_step | reflexivity].
Qed.

Lemma calculate_fibonacci_int_witness :
  calculate_fibonacci
    (VDict [("action", VStr "calculate_fibonacci"); ("data", VDict [("n", VInt 40)])])
    data_store
  = (incr_calculations data_store,
     Ok [ ("action", VStr "calculate_fibonacci");
          ("data", VDict
             [ ("input", VInt 35);
               ("result", VInt (naive_fib 35));
               ("calculations_performed", VInt 1) ]);
          ("success", VBool true) ]).
Proof.
  exact (proj1 (proj1 (calculate_fibonacci_int sample_env data_store
    [("action", VStr "calculate_fibonacci"); ("data", VDict [("n", VInt 40)])]
    [("n", VInt 40)] 40 eq_refl eq_refl eq_refl))).
Defined.

(** *** The effect of one request on the data *)

Ltac py_get_absurd :=
  match goal with
  | H1 : py_get ?v _ _ = Ok _, H2 : py_get ?v _ _ = Raise _ |- _ =>
      destruct v; discriminate
  end.

Ltac effect_case :=
  first
    [ py_get_absurd
    | solve [apply effect_none; reflexivity]
    | solve [eapply effect_product; reflexivity]
    | solve [eapply effect_order;
             [reflexivity | reflexivity | reflexivity | eassumption | reflexivity]]
    | solve [eapply effect_order_failed;
             [reflexivity | reflexivity | eassumption | reflexivity | reflexivity]] ].

Lemma handle_effect : forall e r s,
  effect s (fst (handle e r s)) (snd (handle e r s)).
Proof.
  intros e [ | body | body | body | body] s; unfold_handlers; run_handler; effect_case.
Qed.

(** *** The analytics aggregate *)

Lemma len_app1 : forall (A : Type) (l : list A) (x : A), len (l ++ [x]) = len l + 1.
Proof. intros. unfold len. rewrite length_app. cbn. lia. Qed.

(** *** The aggregate, request by request *)

Ltac dict_of_get :=
  repeat match goal with
         | H : py_get ?v _ _ = Ok _ |- _ =>
             is_var v; destruct v; try discriminate H
         end.












(** *** Rounding a positive integer never gives zero *)

Lemma digits2_pos_lower : forall p, 2 ^ (Zpos (digits2_pos p) - 1) <= Zpos p.
Proof.
  induction p as [p IH | p IH | ]; cbn [digits2_pos].
  - rewrite Pos2Z.inj_succ.
    replace (Z.succ (Zpos (digits2_pos p)) - 1) with (Z.succ (Zpos (digits2_pos p) - 1)) by lia.
    rewrite Z.pow_succ_r by lia. lia.
  - rewrite Pos2Z.inj_succ.
    replace (Z.succ (Zpos (digits2_pos p)) - 1) with (Z.succ (Zpos (digits2_pos p) - 1)) by lia.
    rewrite Z.pow_succ_r by lia. lia.
  - cbn. lia.
Qed.

Lemma shr_1_m : forall mrs, 0 <= shr_m mrs -> shr_m (shr_1 mrs) = shr_m mrs / 2.
Proof.
  intros [m r s] Hm. cbn [shr_m] in *.
  destruct m as [ | [p | p | ] | p]; cbn [shr_1 shr_m].
  - reflexivity.
  - apply Z.div_unique with (r := 1); lia.
  - apply Z.div_unique with (r := 0); lia.
  - reflexivity.
  - lia.
Qed.

Lemma iter_shr_1_m : forall n mrs,
  0 <= shr_m mrs ->
  shr_m (iter_pos shr_1 n mrs) = shr_m mrs / 2 ^ Zpos n.
Proof.
  assert (Hpow : forall k, 0 < 2 ^ Zpos k) by (intros; apply Z.pow_pos_nonneg; lia).
  assert (Hnn : forall m k, 0 <= m -> 0 <= m / 2 ^ Zpos k).
  { intros m k Hm. apply Z.div_pos; [exact Hm | apply Hpow]. }
  induction n as [n IH | n IH | ]; intros mrs Hm; cbn [iter_pos].
  - assert (H1 : 0 <= shr_m (shr_1 mrs)).
    { rewrite shr_1_m by exact Hm. apply Z.div_pos; lia. }
    assert (H2 : 0 <= shr_m (iter_pos shr_1 n (shr_1 mrs))).
    { rewrite IH by exact H1. apply Hnn, H1. }
    rewrite (IH _ H2), (IH _ H1), (shr_1_m _ Hm).
    pose proof (Hpow n).
    rewrite !Z.div_div by lia.
    f_equal. change (Zpos n~1) with (2 * Zpos n + 1).
    replace (2 * Zpos n + 1) with (1 + (Zpos n + Zpos n)) by lia.
    rewrite Z.pow_add_r, Z.pow_add_r by lia. rewrite Z.pow_1_r. lia.
  - assert (H2 : 0 <= shr_m (iter_pos shr_1 n mrs)).
    { rewrite IH by exact Hm. apply Hnn, Hm. }
    rewrite (IH _ H2), (IH _ Hm).
    pose proof (Hpow n).
    rewrite Z.div_div by lia.
    f_equal. change (Zpos n~0) with (2 * Zpos n).
    replace (2 * Zpos n) with (Zpos n + Zpos n) by lia.
    rewrite Z.pow_add_r by lia. reflexivity.
  - apply shr_1_m, Hm.
Qed.

(** Shifting a positive mantissa down to its format keeps it positive,
    as long as its exponent is not below the smallest one. *)
Lemma shr_fexp_pos : forall p e l,
  emin prec emax <= e ->
  0 < shr_m (fst (shr_fexp prec emax (Zpos p) e l)) /\
  e <= snd (shr_fexp prec emax (Zpos p) e l).
Proof.
  intros p e l He. unfold shr_fexp, shr. cbn [Zdigits2].
  remember (fexp prec emax (Zpos (digits2_pos p) + e) - e) as n eqn:Hn.
  assert (Hm0 : shr_m (shr_record_of_loc (Zpos p) l) = Zpos p)
    by (destruct l as [ | [ | | ]]; reflexivity).
  destruct n as [ | n | n]; cbn [fst snd]; try (rewrite Hm0; lia).
  rewrite iter_shr_1_m by (rewrite Hm0; lia). rewrite Hm0.
  split; [ | lia].
  apply Z.div_str_pos. split; [apply Z.pow_pos_nonneg; lia | ].
  eapply Z.le_trans; [ | apply digits2_pos_lower].
  apply Z.pow_le_mono_r; [lia | ].
  unfold fexp, emin, prec, emax in *. lia.
Qed.

Lemma round_nearest_even_pos : forall m l, 0 < m -> 0 < round_nearest_even m l.
Proof.
  intros m [ | [ | | ]] H; cbn [round_nearest_even]; try lia.
  destruct (Z.even m); lia.
Qed.

Lemma binary_round_aux_nonzero : forall s p e l,
  emin prec emax <= e ->
  is_zero (binary_round_aux prec emax s (Zpos p) e l) = false.
Proof.
  intros s p e l He. unfold binary_round_aux.
  destruct (shr_fexp_pos p e l He) as [Hm1 He1].
  destruct (shr_fexp prec emax (Zpos p) e l) as [mrs1 e1]. cbn [fst snd] in Hm1, He1.
  pose proof (round_nearest_even_pos _ (loc_of_shr_record mrs1) Hm1) as Hr.
  destruct (round_nearest_even (shr_m mrs1) (loc_of_shr_record mrs1)) as [ | q | q];
    try lia.
  destruct (shr_fexp_pos q e1 loc_Exact ltac:(lia)) as [Hm2 _].
  destruct (shr_fexp prec emax (Zpos q) e1 loc_Exact) as [mrs2 e2]. cbn [fst] in Hm2.
  destruct (shr_m mrs2) as [ | m2 | m2]; try lia.
  destruct (e2 <=? emax - prec); reflexivity.
Qed.

Lemma float_of_int_nonzero : forall k f,
  0 < k -> float_of_int k = Ok f -> is_zero f = false.
Proof.
  intros k f Hk H. unfold float_of_int in H.
  destruct (is_infinite _) eqn:Hinf; [discriminate | ]. injection H as <-.
  destruct k as [ | p | p]; try lia.
  unfold binary_normalize, binary_round, shl_align.
  remember (fexp prec emax (Zpos (digits2_pos p) + 0)) as ex eqn:Hex.
  assert (Hmin : emin prec emax <= ex) by (subst ex; unfold fexp; lia).
  destruct (ex - 0) as [ | d | d] eqn:Hd; apply binary_round_aux_nonzero;
    unfold emin, prec, emax in *; lia.
Qed.


(** *** The average order value *)


Lemma get_analytics_ok : forall s avg,
  py_truediv (total_revenue s) (VInt (Z.max (len (orders s)) 1)) = Ok avg ->
  get_analytics s = (s, Ok (analytics_result s (round2 avg))).
Proof.
  intros s avg H. unfold get_analytics, bind, get, lift, ret. rewrite H. reflexivity.
Qed.




(** *** The catalogue *)

Lemma product_step : forall e r s,
  product_post s (fst (handle e r s)) (e, r) (snd (handle e r s)).
Proof.
  intros e [ | body | body | body | body] s.
  1, 3, 4, 5: unfold_handlers; run_handler; unfold product_post; cbn;
    rewrite app_nil_r; reflexivity.
  unfold_handlers. run_handler.
  all: try py_get_absurd.
  all: unfold product_post, accepted_product; cbn [snd fst lookup String.eqb Ascii.eqb Bool.eqb].
  all: repeat match goal with
              | H : py_get (get_json_or_empty _) _ _ = _ |- _ => rewrite H; clear H
              end.
  all: dict_of_get.
  all: repeat match goal with
              | H : py_eq_str _ _ = _ |- _ => rewrite H; clear H
              end.
  all: cbn; rewrite ?app_nil_r; try reflexivity.
  cbn [py_get] in *.
  repeat match goal with H : Ok _ = Ok _ |- _ => injection H as <- end.
  reflexivity.
Qed.

Lemma run_app : forall rs rs' s,
  run (rs ++ rs') s =
  (fst (run rs' (fst (run rs s))), (snd (run rs s) ++ snd (run rs' (fst (run rs s))))%list).
Proof.
  induction rs as [ | [e r] rs IH]; intros rs' s.
  - cbn. destruct (run rs' s); reflexivity.
  - cbn [app]. rewrite !run_cons, IH. reflexivity.
Qed.

Lemma reachable_run : forall rs s, reachable s -> reachable (fst (run rs s)).
Proof.
  induction rs as [ | [e r] rs IH]; intros s Hs; [exact Hs | ].
  rewrite run_cons. cbn [fst]. apply IH. constructor. exact Hs.
Qed.

Lemma reachable_final : forall s, reachable s <-> exists rs, s = final rs.
Proof.
  intros s. split.
  - induction 1 as [ | s e r Hs [rs ->]].
    + exists []. reflexivity.
    + exists (rs ++ [(e, r)])%list. unfold final. rewrite run_app. cbn [fst run].
      destruct (handle e r (fst (run rs data_store))); reflexivity.
  - intros [rs ->]. apply reachable_run. constructor.
Qed.

Lemma run_products : forall rs s,
  map fields_of (products (fst (run rs s))) =
  (map fields_of (products s) ++ created_fields (combine rs (snd (run rs s))))%list.
Proof.
  induction rs as [ | [e r] rs IH]; intros s.
  - cbn. rewrite app_nil_r. reflexivity.
  - rewrite run_cons. cbn [fst snd combine created_fields flat_map].
    rewrite IH. pose proof (product_step e r s) as Hstep. unfold product_post in Hstep.
    rewrite Hstep, map_app, <- app_assoc. f_equal. f_equal.
    destruct (accepted_product (e, r) (snd (handle e r s))) as [[n p c k] | ]; reflexivity.
Qed.

Lemma positions_app1 : forall (A : Type) (l : list A) (x : A),
  positions (l ++ [x]) = (positions l ++ [len l + 1])%list.
Proof.
  intros A l x. unfold positions, len. rewrite length_app. cbn [List.length].
  rewrite seq_app, map_app. cbn. f_equal. f_equal. lia.
Qed.

Lemma reachable_ids : forall s, reachable s -> map p_id (products s) = positions (products s).
Proof.
  induction 1 as [ | s e r Hs IH]; [reflexivity | ].
  pose proof (product_step e r s) as Hstep. unfold product_post in Hstep.
  rewrite Hstep.
  destruct (accepted_product (e, r) (snd (handle e r s))) as [f | ]; cbn [option_list map].
  - rewrite positions_app1, map_app, IH. reflexivity.
  - rewrite app_nil_r. exact IH.
Qed.

Lemma product_created_stored : forall e s b d,
  lookup "hook" b = Some (VStr "product.created") ->
  py_get (VDict b) "payload" (VDict []) = Ok (VDict d) ->
  products (fst (handle_product_action e (VDict b) s)) =
    (products s ++ [product_of (len (products s) + 1) (payload_fields d)])%list /\
  exists r, snd (handle_product_action e (VDict b) s) = Json 200 (VDict r) /\
            lookup "success" r = Some (VBool true).
Proof.
  intros e s b d Hhook Hpayload.
  unfold handle_product_action, product_action_body, hook_processed.
  rewrite (lookup_some_nonempty _ _ _ Hhook).
  unfold serve, bind, try_except, lift, ret, modify, get.
  rewrite (py_get_found _ _ _ _ Hhook), Hpayload. cbn.
  split; [reflexivity | ]. eexists; split; reflexivity.
Qed.

Lemma nth_error_positions : forall (A : Type) (l : list A) i x,
  nth_error l i = Some x -> nth_error (positions l) i = Some (Z.of_nat i + 1).
Proof.
  intros A l i x H. unfold positions.
  assert (Hi : (i < List.length l)%nat) by (apply nth_error_Some; congruence).
  rewrite nth_error_map, nth_error_seq.
  destruct (Nat.ltb_spec i (List.length l)); [ | lia].
  cbn. f_equal. lia.
Qed.

Lemma NoDup_map_of_nat : forall l, NoDup l -> NoDup (map Z.of_nat l).
Proof.
  induction 1 as [ | x l Hx Hl IH]; cbn [map]; constructor; [ | exact IH].
  intros Hin. apply in_map_iff in Hin. destruct Hin as (y & Hy & Hin).
  apply Nat2Z.inj in Hy. subst y. exact (Hx Hin).
Qed.

(** C9, as the code has it. In every reachable state the id of each
    stored product is its 1-based position in the catalogue, so no two
    products share an id; and a [product.created] hook with a mapping for
    payload is accepted with whatever [price] and [stock] the payload
    supplies (or the defaults [0.0] and [0]), stored as they are. *)
Theorem product_ids_by_position : forall s,
  reachable s ->
  (forall i p, nth_error (products s) i = Some p -> p_id p = Z.of_nat i + 1) /\
  NoDup (map p_id (products s)) /\
  (forall e b d,
     lookup "hook" b = Some (VStr "product.created") ->
     py_get (VDict b) "payload" (VDict []) = Ok (VDict d) ->
     products (fst (handle_product_action e (VDict b) s)) =
       (products s ++ [product_of (len (products s) + 1) (payload_fields d)])%list /\
     exists r, snd (handle_product_action e (VDict b) s) = Json 200 (VDict r) /\
               lookup "success" r = Some (VBool true)).
Proof.
  intros s Hs. pose proof (reachable_ids s Hs) as Hids. split; [ | split].
  - intros i p Hnth.
    pose proof (map_nth_error p_id _ _ Hnth) as Hm.
    rewrite Hids, (nth_error_positions _ _ _ _ Hnth) in Hm. congruence.
  - rewrite Hids. unfold positions.
    apply NoDup_map_of_nat, seq_NoDup.
  - intros e b d. apply product_created_stored.
Qed.

Lemma product_ids_by_position_witness :
  NoDup (map p_id (products (final unchecked_trace))).
Proof.
  refine (proj1 (proj2 (product_ids_by_position (final unchecked_trace) _))).
  apply reachable_final. exists unchecked_trace. reflexivity.
Defined.

(** C9 fails as stated: the [product.created] hook of [unchecked_trace]
    is accepted, and its product is stored with the negative price and the
    non-numeric stock it came with. *)
Lemma negative_price_stored :
  (exists r, responses unchecked_trace = [Json 200 (VDict r)] /\
             lookup "success" r = Some (VBool true)) /\
  (exists p, In p (products (final unchecked_trace)) /\
             p_id p = 4 /\ p_price p = VInt (-5) /\ p_stock p = VStr "many").
Proof.
  split.
  - eexists; split; reflexivity.
  - exists (mkProduct 4 (VStr "Mystery Box") (VInt (-5)) (VStr "general") (VStr "many")).
    split; [ | repeat split].
    cbn. right; right; right; left. reflexivity.
Qed.

Lemma run_products_grow : forall rs s,
  exists more, products (fst (run rs s)) = (products s ++ more)%list.
Proof.
  induction rs as [ | [e r] rs IH]; intros s.
  - exists []. cbn. rewrite app_nil_r. reflexivity.
  - rewrite run_cons. cbn [fst].
    destruct (IH (fst (handle e r s))) as [more Hmore].
    pose proof (product_step e r s) as Hstep. unfold product_post in Hstep.
    rewrite Hmore, Hstep, <- app_assoc. eexists. reflexivity.
Qed.

Lemma product_value_fields : forall p,
  product_value p =
  VDict [ ("id", VInt (p_id p)); ("name", f_name (fields_of p));
          ("price", f_price (fields_of p)); ("category", f_category (fields_of p));
          ("stock", f_stock (fields_of p)) ].
Proof. intros p. reflexivity. Qed.

(** C8. After any sequence of requests the catalogue is the seeded
    products followed by the products of the successful [product.created]
    calls, in call order, each under the id of its position;
    [list_products] returns one entry per product of the catalogue, in
    that order, showing its id, name, price, category and stock, with
    their count; and whatever requests follow, the catalogue only grows
    at its end. *)
Theorem list_products_reflects_created : forall rs,
  map fields_of (products (final rs)) = catalogue rs /\
  map p_id (products (final rs)) = positions (products (final rs)) /\
  (exists entries,
     list_products (final rs) =
       (incr_queries (final rs),
        Ok [ ("action", VStr "list_products");
             ("data", VList entries);
             ("count", VInt (len (catalogue rs)));
             ("success", VBool true) ]) /\
     (forall e rd,
        lookup "action" rd = Some (VStr "list_products") ->
        snd (execute e (VDict rd) (final rs)) =
          Json 200 (VDict ([ ("action", VStr "list_products");
                             ("data", VList entries);
                             ("count", VInt (len (catalogue rs)));
                             ("success", VBool true) ]
                           ++ envelope e (incr_requests (final rs))))) /\
     List.length entries = List.length (catalogue rs) /\
     (forall i f,
        nth_error (catalogue rs) i = Some f ->
        nth_error entries i =
          Some (VDict [ ("id", VInt (Z.of_nat i + 1)); ("name", f_name f);
                        ("price", f_price f); ("category", f_category f);
                        ("stock", f_stock f) ]))) /\
  (forall rs', exists more,
     products (final (rs ++ rs')) = (products (final rs) ++ more)%list).
Proof.
  intros rs.
  assert (Hfields : map fields_of (products (final rs)) = catalogue rs)
    by apply run_products.
  assert (Hids : map p_id (products (final rs)) = positions (products (final rs)))
    by (apply reachable_ids, reachable_final; exists rs; reflexivity).
  assert (Hlen : len (products (final rs)) = len (catalogue rs))
    by (rewrite <- Hfields; unfold len; rewrite length_map; reflexivity).
  split; [exact Hfields | ]. split; [exact Hids | ]. split.
  - exists (map product_value (products (final rs))).
    split; [ | split; [ | split]].
    + unfold list_products, bind, modify, get, ret. cbn [products incr_queries].
      rewrite Hlen. reflexivity.
    + intros e rd Hact.
      unfold execute, dispatch, list_products, serve, bind, try_except, lift, modify, get, ret.
      rewrite (lookup_some_nonempty _ _ _ Hact), (py_get_found _ _ _ _ Hact).
      printed. cbn [py_eq_str String.eqb Ascii.eqb Bool.eqb products incr_queries incr_requests].
      rewrite Hlen. reflexivity.
    + rewrite <- Hfields, !length_map. reflexivity.
    + intros i f Hnth. rewrite <- Hfields in Hnth.
      rewrite nth_error_map in Hnth.
      destruct (nth_error (products (final rs)) i) as [p | ] eqn:Hp; [ | discriminate Hnth].
      cbn [option_map] in Hnth. injection Hnth as <-.
      rewrite (map_nth_error product_value _ _ Hp), product_value_fields. do 4 f_equal.
      pose proof (map_nth_error p_id _ _ Hp) as Hm.
      rewrite Hids, (nth_error_positions _ _ _ _ Hp) in Hm. congruence.
  - intros rs'. unfold final. rewrite run_app. cbn [fst].
    apply run_products_grow.
Qed.

Lemma list_products_reflects_created_witness :
  exists entries,
    snd (execute sample_env (VDict [("action", VStr "list_products")])
           (final unchecked_trace)) =
      Json 200 (VDict ([ ("action", VStr "list_products");
                         ("data", VList entries);
                         ("count", VInt 4);
                         ("success", VBool true) ]
                       ++ envelope sample_env (incr_requests (final unchecked_trace)))) /\
    nth_error entries 3 =
      Some (VDict [ ("id", VInt 4); ("name", VStr "Mystery Box");
                    ("price", VInt (-5)); ("category", VStr "general");
                    ("stock", VStr "many") ]).
Proof.
  destruct (proj1 (proj2 (proj2 (list_products_reflects_created unchecked_trace))))
    as (entries & _ & Hexec & _ & Hnth).
  exists entries. split.
  - exact (Hexec sample_env [("action", VStr "list_products")] eq_refl).
  - exact (Hnth 3%nat (mkFields (VStr "Mystery Box") (VInt (-5)) (VStr "general")
                                (VStr "many")) eq_refl).
Defined.

(** *** The revenue stays a number *)

Lemma py_add_number : forall a b c x,
  as_num a = Some x -> py_add a b = Ok c -> exists y, as_num c = Some y.
Proof.
  intros a b c x Ha H. unfold py_add in H. rewrite Ha in H.
  destruct (as_num b) as [y | ].
  - destruct (num_add x y) as [n | ex]; cbn [rbind] in H; [ | discriminate H].
    injection H as <-. exists n. destruct n; reflexivity.
  - destruct a; try discriminate Ha; discriminate H.
Qed.

(** [total_revenue] is an [int] or a [float] in every reachable state, so
    the in-place [+=] on it is the [+] of numbers. *)
Lemma reachable_revenue_number : forall s,
  reachable s -> exists x, as_num (total_revenue s) = Some x.
Proof.
  induction 1 as [ | s e r Hs [x IH]]; [eexists; reflexivity | ].
  destruct (handle_effect e r s) as [s' resp Hp Ho Hr Hc | s' p b Hp Hid Ho Hr Hc
                                     | s' o b Hp Ho Hid Hadd Hc | s' o ex b Hp Ho Hadd Hr Hc].
  - rewrite Hr. eauto.
  - rewrite Hr. eauto.
  - eapply py_add_number; eassumption.
  - rewrite Hr. eauto.
Qed.

Lemma error_statuses_witness :
  (exists b, snd (handle_order_action sample_env
                    (VDict [("hook", VStr "order.deleted")]) data_store) = Json 400 b /\
             failure_body b) /\
  status_of (snd (execute sample_env
                    (VDict [("action", VStr "calculate_fibonacci");
                            ("data", VDict [("n", VStr "ten")])]) data_store)) = 500.
Proof.
  pose proof (error_statuses sample_env (VDict [("hook", VStr "order.deleted")]) data_store)
    as (Hhook & _ & _).
  pose proof (error_statuses sample_env
                (VDict [("action", VStr "calculate_fibonacci");
                        ("data", VDict [("n", VStr "ten")])]) data_store)
    as (_ & _ & Hraise).
  split.
  - exact (proj1 (proj2 (Hhook (VStr "order.deleted") eq_refl eq_refl)) eq_refl).
  - exact (proj1 (Hraise TypeError) eq_refl).
Defined.

(** ** Further properties *)

(** *** The orders *)

Lemma order_step : forall e r s, order_post s (fst (handle e r s)).
Proof.
  intros e [ | body | body | body | body] s; unfold_handlers; run_handler;
    unfold order_post;
    first [ left; split; reflexivity
          | right; eexists; split; [reflexivity | ];
            split; [reflexivity | ]; split; [reflexivity | ];
            first [left; reflexivity | right; reflexivity] ].
Qed.

Lemma reachable_orders : forall s,
  reachable s ->
  map o_id (orders s) = positions (orders s) /\
  Forall status_by_path (orders s) /\
  0 <= orders_count s <= len (orders s).
Proof.
  induction 1 as [ | s e r Hs (IHid & IHst & IHc)].
  - cbn. repeat split; try constructor; unfold len; cbn; lia.
  - destruct (order_step e r s) as [[Ho Hc] | (o & Ho & Hid & Hst & Hc)].
    + rewrite Ho, Hc. repeat split; assumption || lia.
    + rewrite Ho, positions_app1, map_app, IHid, len_app1. cbn [map].
      split; [rewrite Hid; reflexivity | ].
      split; [apply Forall_app; split; [exact IHst | constructor; [exact Hst | constructor]] | ].
      destruct Hc as [-> | ->]; lia.
Qed.

Lemma final_reachable : forall rs, reachable (final rs).
Proof. intros rs. apply reachable_final. exists rs. reflexivity. Qed.

(** X1. After any sequence of requests the id of each stored order is its
    1-based position in the sequence of orders, whichever path created it
    and whether or not the aggregate was updated for it; so no two orders
    share an id. *)
Theorem order_ids_by_position : forall rs,
  map o_id (orders (final rs)) = positions (orders (final rs)) /\
  NoDup (map o_id (orders (final rs))) /\
  (forall i o, nth_error (orders (final rs)) i = Some o -> o_id o = Z.of_nat i + 1).
Proof.
  intros rs. destruct (reachable_orders _ (final_reachable rs)) as (Hid & _ & _).
  split; [exact Hid | ]. split.
  - rewrite Hid. apply NoDup_map_of_nat, seq_NoDup.
  - intros i o Hnth. pose proof (map_nth_error o_id _ _ Hnth) as Hm.
    rewrite Hid, (nth_error_positions _ _ _ _ Hnth) in Hm. congruence.
Qed.

Lemma run_orders_grow : forall rs s,
  exists more, orders (fst (run rs s)) = (orders s ++ more)%list.
Proof.
  induction rs as [ | [e r] rs IH]; intros s.
  - exists []. cbn. rewrite app_nil_r. reflexivity.
  - rewrite run_cons. cbn [fst].
    destruct (IH (fst (handle e r s))) as [more Hmore]. rewrite Hmore.
    destruct (order_step e r s) as [[Ho _] | (o & Ho & _)]; rewrite Ho.
    + eexists. reflexivity.
    + rewrite <- app_assoc. eexists. reflexivity.
Qed.

(** X2. Orders are only ever appended: whatever requests follow, the orders
    stored so far stay as they are, in place, with the status of the path
    that created them ([processing] for the webhook's, [confirmed] for
    those of [/execute]); no hook or action rewrites or removes one. *)
Theorem orders_append_only : forall rs rs',
  (exists more, orders (final (rs ++ rs')) = (orders (final rs) ++ more)%list) /\
  Forall status_by_path (orders (final rs)).
Proof.
  intros rs rs'. split.
  - unfold final. rewrite run_app. cbn [fst]. apply run_orders_grow.
  - apply reachable_orders, final_reachable.
Qed.

(** X3. [orders_count] never runs ahead of the orders: after any sequence of
    requests it lies between 0 and the number of stored orders. *)
Theorem orders_count_bounded : forall rs,
  0 <= orders_count (final rs) <= len (orders (final rs)).
Proof.
  intros rs. apply reachable_orders, final_reachable.
Qed.

(** *** The revenue and the average *)

Lemma truediv_number : forall v x k,
  as_num v = Some x -> 0 < k ->
  (exists f, py_truediv v (VInt k) = Ok f) \/
  py_truediv v (VInt k) = Raise OverflowError.
Proof.
  intros v x k Hv Hk. unfold py_truediv. rewrite Hv. cbn [as_num].
  destruct x as [a | f]; unfold num_truediv.
  - destruct (Z.eqb_spec k 0); [lia | ]. cbv zeta.
    destruct (is_infinite _); [right; reflexivity | left; eexists; reflexivity].
  - cbn [num_float rbind].
    destruct (float_of_int k) as [b | ex] eqn:Hb; cbn [rbind].
    + rewrite (float_of_int_nonzero k b Hk Hb). left; eexists; reflexivity.
    + right. unfold float_of_int in Hb. cbv zeta in Hb.
      destruct (is_infinite _); [ | discriminate Hb]. injection Hb as <-. reflexivity.
Qed.

(** X4. After any sequence of requests [total_revenue] is an [int] or a
    [float], and [get_analytics] either returns its result or raises
    [OverflowError], never [TypeError] or [ZeroDivisionError]; the overflow
    is real: once an order with an integer total beyond the range of a
    float has been accepted, [get_analytics] is answered with status 500. *)
Theorem get_analytics_fails_only_on_overflow :
  (forall rs,
     (exists x, as_num (total_revenue (final rs)) = Some x) /\
     ((exists avg,
         get_analytics (final rs) =
           (final rs, Ok (analytics_result (final rs) (round2 avg)))) \/
      get_analytics (final rs) = (final rs, Raise OverflowError))) /\
  (total_revenue (final huge_total_trace) = VInt (10 ^ 400) /\
   get_analytics (final huge_total_trace) = (final huge_total_trace, Raise OverflowError) /\
   status_of (snd (execute sample_env (VDict [("action", VStr "get_analytics")])
                     (final huge_total_trace))) = 500).
Proof.
  split.
  - intros rs.
    destruct (reachable_revenue_number _ (final_reachable rs)) as [x Hx].
    split; [exists x; exact Hx | ].
    destruct (truediv_number _ x (Z.max (len (orders (final rs))) 1) Hx ltac:(lia))
      as [[f Hf] | Hov].
    + left. exists f. apply get_analytics_ok, Hf.
    + right. unfold get_analytics, bind, get, lift. rewrite Hov. reflexivity.
  - split; [reflexivity | ]. split; vm_compute; reflexivity.
Qed.

(** *** The analytics webhook *)

(** X5. [/actions/analytics] only reads the data: whatever the body, the
    store after the call is the store before with [calculations] one
    higher.  For a supported hook its snapshot agrees with the one
    [get_analytics] computes in the same store on the product count, the
    order count, the revenue and the rounded average, and it reports the
    [calculations] counter as just incremented. *)
Theorem analytics_hook_reads_only : forall e body s,
  fst (handle_analytics_action e body s) = incr_calculations s /\
  (forall b h avg,
     body = VDict b ->
     lookup "hook" b = Some (VStr h) ->
     In h ["analytics.calculate"; "report.generate"] ->
     py_truediv (total_revenue s) (VInt (Z.max (len (orders s)) 1)) = Ok avg ->
     exists r data gdata,
       snd (handle_analytics_action e body s) = Json 200 (VDict r) /\
       lookup "success" r = Some (VBool true) /\
       lookup "data" r = Some (VDict data) /\
       lookup "data" (analytics_result s (round2 avg)) = Some (VDict gdata) /\
       (forall k, In k ["total_products"; "total_orders"; "total_revenue";
                        "average_order_value"] ->
                  lookup k data = lookup k gdata /\ lookup k data <> None) /\
       lookup "calculations_performed" data = Some (VInt (calculations s + 1))).
Proof.
  intros e body s. split.
  - unfold_handlers. run_handler; reflexivity.
  - intros b h avg -> Hhook Hin Havg.
    unfold handle_analytics_action, analytics_action_body.
    rewrite (lookup_some_nonempty _ _ _ Hhook).
    unfold serve, bind, try_except, lift, ret, modify, get.
    rewrite (py_get_found _ _ _ _ Hhook).
    assert (Hsup : py_in_strs (VStr h) analytics_hooks = true).
    { cbn in Hin. destruct Hin as [<- | [<- | []]]; reflexivity. }
    rewrite (member_printed _ _ Hsup eq_refl), Hsup. cbn [py_get].
    change (total_revenue (incr_calculations s)) with (total_revenue s).
    change (orders (incr_calculations s)) with (orders s).
    rewrite Havg.
    eexists _, _, _. split; [reflexivity | ]. split; [reflexivity | ].
    split; [reflexivity | ]. split; [reflexivity | ]. split; [ | reflexivity].
    intros k Hk. cbn in Hk.
    destruct Hk as [<- | [<- | [<- | [<- | []]]]]; split; reflexivity || discriminate.
Qed.

Lemma analytics_hook_reads_only_witness :
  exists r data,
    snd (handle_analytics_action sample_env
           (VDict [("hook", VStr "report.generate")]) (final thirds_trace))
      = Json 200 (VDict r) /\
    lookup "data" r = Some (VDict data) /\
    lookup "average_order_value" data = Some (VFloat (round_quotient 33 100)).
Proof.
  destruct (proj2 (analytics_hook_reads_only sample_env
                     (VDict [("hook", VStr "report.generate")]) (final thirds_trace))
                  [("hook", VStr "report.generate")] "report.generate"
                  (round_quotient 1 3) eq_refl eq_refl (or_intror (or_introl eq_refl)) eq_refl)
    as (r & data & gdata & Hr & _ & Hd & Hg & Hk & _).
  exists r, data. split; [exact Hr | ]. split; [exact Hd | ].
  rewrite (proj1 (Hk "average_order_value" (or_intror (or_intror (or_intror (or_introl eq_refl)))))).
  cbn in Hg. injection Hg as <-. reflexivity.
Defined.

(** *** When the error handler itself fails *)

Ltac json_case :=
  first
    [ py_get_absurd
    | solve [eexists; left; reflexivity]
    | solve [eexists; right; left; reflexivity]
    | solve [eexists; right; right; reflexivity] ].

Lemma webhooks_answer_json : forall e body s,
  (exists b, snd (handle_product_action e body s) = Json 200 b \/
             snd (handle_product_action e body s) = Json 400 b \/
             snd (handle_product_action e body s) = Json 500 b) /\
  (exists b, snd (handle_order_action e body s) = Json 200 b \/
             snd (handle_order_action e body s) = Json 400 b \/
             snd (handle_order_action e body s) = Json 500 b) /\
  (exists b, snd (handle_analytics_action e body s) = Json 200 b \/
             snd (handle_analytics_action e body s) = Json 400 b \/
             snd (handle_analytics_action e body s) = Json 500 b).
Proof.
  intros e body s. repeat split; unfold_handlers; run_handler; json_case.
Qed.

(** X6. The webhook endpoints always answer with a JSON body, under status
    200, 400 or 500.  [/execute] answers with a JSON body, under status
    200 or 500, exactly when the request document (or [{}] in place of a
    falsy one) is a mapping; for any other document the lookup of [action]
    raises in the [try] block and again in the [except] clause, so the
    exception escapes the view function. *)
Theorem execute_unhandled_iff_not_mapping : forall e body s,
  ((exists d, get_json_or_empty body = VDict d) ->
   exists b, snd (execute e body s) = Json 200 b \/ snd (execute e body s) = Json 500 b) /\
  ((forall d, get_json_or_empty body <> VDict d) ->
   execute e body s = (incr_requests s, Unhandled)) /\
  ((exists b, snd (handle_product_action e body s) = Json 200 b \/
              snd (handle_product_action e body s) = Json 400 b \/
              snd (handle_product_action e body s) = Json 500 b) /\
   (exists b, snd (handle_order_action e body s) = Json 200 b \/
              snd (handle_order_action e body s) = Json 400 b \/
              snd (handle_order_action e body s) = Json 500 b) /\
   (exists b, snd (handle_analytics_action e body s) = Json 200 b \/
              snd (handle_analytics_action e body s) = Json 400 b \/
              snd (handle_analytics_action e body s) = Json 500 b)).
Proof.
  intros e body s. split; [ | split; [ | apply webhooks_answer_json]].
  - intros [d Hd]. unfold execute. cbv zeta. rewrite Hd. clear Hd.
    unfold dispatch, list_products, create_order, get_analytics, calculate_fibonacci,
      simulate_delay, random_data, unknown_action.
    run_handler;
      first [ discriminate
            | solve [eexists; left; reflexivity]
            | solve [eexists; right; reflexivity] ].
  - intros Hnot. unfold execute, dispatch. cbv zeta.
    destruct (get_json_or_empty body) as [ | | | | | | d] eqn:Hrd;
      try reflexivity.
    exfalso. exact (Hnot d eq_refl).
Qed.

Lemma execute_unhandled_iff_not_mapping_witness :
  execute sample_env (VList [VStr "create_order"]) data_store
    = (incr_requests data_store, Unhandled) /\
  exists b, snd (execute sample_env VNone data_store) = Json 200 b \/
            snd (execute sample_env VNone data_store) = Json 500 b.
Proof.
  split.
  - apply (proj1 (proj2 (execute_unhandled_iff_not_mapping sample_env
                           (VList [VStr "create_order"]) data_store))).
    intros d H. discriminate H.
  - apply (proj1 (execute_unhandled_iff_not_mapping sample_env VNone data_store)).
    exists []. reflexivity.
Defined.

(** *** Discovery against the handlers *)







(** *** The counters, exactly *)

Lemma py_eq_str_true : forall s a, py_eq_str s a = true -> a = VStr s.
Proof.
  intros s [ | | | | t | | ] H; try discriminate H.
  cbn in H. apply String.eqb_eq in H. congruence.
Qed.

Lemma counter_step : forall e r s, counter_post s (fst (handle e r s)) r.
Proof.
  intros e [ | body | body | body | body] s.
  1, 2, 3, 4: unfold_handlers; run_handler; unfold counter_post; cbn; lia.
  unfold_handlers. run_handler.
  all: unfold counter_post, counted_request, counted_calculation, counted_query, action_is.
  all: match goal with
       | H : py_get (get_json_or_empty _) "action" (VStr "default") = _ |- _ => rewrite H
       end.
  all: repeat match goal with
              | H : py_eq_str _ ?a = true |- _ => apply py_eq_str_true in H; subst a
              end.
  all: repeat match goal with
              | H : py_eq_str _ _ = false |- _ => rewrite H; clear H
              end.
  all: repeat match goal with
              | |- context [py_eq_str ?l ?a] =>
                  let H := fresh in
                  destruct (py_eq_str l a) eqn:H;
                  [ apply py_eq_str_true in H; subst a;
                    match goal with
                    | H' : py_print _ = Raise _ |- _ => vm_compute in H'; discriminate H'
                    end
                  | ]
              end.
  all: cbn; lia.
Qed.

(** X8. Over any sequence of requests the counters count exactly: [requests]
    rises by one for every call to [/health], [/execute] and the product
    and order webhooks; [calculations] by one for every call to the
    analytics webhook and every [/execute] call whose action is
    [calculate_fibonacci]; [queries] by one for every [/execute] call
    whose action is [list_products]; whether the call succeeds or not. *)
Theorem counters_count_exactly : forall rs s,
  requests (fst (run rs s)) = requests s + total (map counted_request (map snd rs)) /\
  calculations (fst (run rs s)) =
    calculations s + total (map counted_calculation (map snd rs)) /\
  queries (fst (run rs s)) = queries s + total (map counted_query (map snd rs)).
Proof.
  induction rs as [ | [e r] rs IH]; intros s.
  - cbn. lia.
  - rewrite run_cons. cbn [fst map snd total fold_right].
    destruct (IH (fst (handle e r s))) as (Hr & Hc & Hq).
    destruct (counter_step e r s) as (Sr & Sc & Sq).
    fold (total (map counted_request (map snd rs))).
    fold (total (map counted_calculation (map snd rs))).
    fold (total (map counted_query (map snd rs))).
    lia.
Qed.

(** *** Ordering a product by its id *)

Lemma find_by_position : forall (l : list product) a i,
  map p_id l = map Z.of_nat (seq a (List.length l)) ->
  find (fun p => py_eq_int (p_id p) (VInt i)) l =
  if (Z.of_nat a <=? i) && (i <? Z.of_nat a + len l)
  then nth_error l (Z.to_nat i - a)
  else None.
Proof.
  induction l as [ | p l IH]; intros a i Hmap.
  - cbn. unfold len; cbn.
    destruct (Z.leb_spec (Z.of_nat a) i), (Z.ltb_spec i (Z.of_nat a + 0));
      cbn; try reflexivity; lia.
  - cbn [List.length seq map] in Hmap. injection Hmap as Hid Hrest.
    cbn [find]. change (py_eq_int (p_id p) (VInt i)) with (p_id p =? i). rewrite Hid.
    unfold len. cbn [List.length]. rewrite Nat2Z.inj_succ.
    destruct (Z.eqb_spec (Z.of_nat a) i) as [<- | Hne].
    + rewrite Z.leb_refl.
      destruct (Z.ltb_spec (Z.of_nat a) (Z.of_nat a + Z.succ (Z.of_nat (List.length l))));
        [ | lia].
      cbn [andb]. rewrite Nat2Z.id, Nat.sub_diag. reflexivity.
    + rewrite (IH (S a) i Hrest). unfold len. rewrite Nat2Z.inj_succ.
      destruct (Z.leb_spec (Z.succ (Z.of_nat a)) i),
               (Z.ltb_spec i (Z.succ (Z.of_nat a) + Z.of_nat (List.length l))),
               (Z.leb_spec (Z.of_nat a) i),
               (Z.ltb_spec i (Z.of_nat a + Z.succ (Z.of_nat (List.length l))));
        cbn [andb]; try reflexivity; try lia.
      replace (Z.to_nat i - a)%nat with (S (Z.to_nat i - S a)) by lia.
      reflexivity.
Qed.

(** X9. After any sequence of requests, [create_order] with an integer
    [product_id] finds a product exactly when the id is between 1 and the
    size of the catalogue, and the product it finds is the one at that
    position: out of that range the answer is "Product not found" and the
    store is untouched; in range, once the total [price * quantity] and
    the new revenue are computed, the order stored and returned carries the
    name and the price of that product, and the aggregate is updated. *)
Theorem create_order_by_position : forall rs e rd d i,
  py_get (VDict rd) "data" (VDict []) = Ok (VDict d) ->
  lookup "product_id" d = Some (VInt i) ->
  let s := final rs in
  let quantity := match lookup "quantity" d with Some v => v | None => VInt 1 end in
  (i < 1 \/ len (products s) < i ->
   create_order e (VDict rd) s =
     (s, Ok [ ("action", VStr "create_order");
              ("error", VStr "Product not found");
              ("success", VBool false) ])) /\
  (forall p total rev,
     1 <= i ->
     nth_error (products s) (Z.to_nat (i - 1)) = Some p ->
     py_mul (p_price p) quantity = Ok total ->
     py_add (total_revenue s) total = Ok rev ->
     create_order e (VDict rd) s =
       (incr_orders_count
          (set_total_revenue rev
             (append_order (linked_order e s (VInt i) quantity p total) s)),
        Ok [ ("action", VStr "create_order");
             ("data", order_value (linked_order e s (VInt i) quantity p total));
             ("message", VStr "Order created successfully");
             ("success", VBool true) ])).
Proof.
  intros rs e rd d i Hdata Hid s quantity.
  pose proof (reachable_ids s (final_reachable rs)) as Hids.
  pose proof (find_by_position (products s) 1 i Hids) as Hfind.
  split.
  - intros Hout. unfold create_order, bind, lift, get, ret.
    rewrite Hdata. cbn [py_get]. rewrite Hid, Hfind.
    destruct (Z.leb_spec (Z.of_nat 1) i), (Z.ltb_spec i (Z.of_nat 1 + len (products s)));
      cbn [andb]; try reflexivity; lia.
  - intros p total rev Hi Hnth Hmul Hadd.
    assert (Hlt : (Z.to_nat (i - 1) < List.length (products s))%nat)
      by (apply nth_error_Some; congruence).
    unfold create_order, bind, lift, get, ret, modify.
    rewrite Hdata. cbn [py_get]. rewrite Hid, Hfind.
    destruct (Z.leb_spec (Z.of_nat 1) i); [ | lia].
    destruct (Z.ltb_spec i (Z.of_nat 1 + len (products s))); [ | unfold len in *; lia].
    cbn [andb]. replace (Z.to_nat i - 1)%nat with (Z.to_nat (i - 1)) by lia.
    rewrite Hnth. fold quantity. rewrite Hmul.
    change (total_revenue (append_order _ s)) with (total_revenue s).
    rewrite Hadd. reflexivity.
Qed.

Lemma create_order_by_position_witness :
  let rd := [ ("action", VStr "create_order");
              ("data", VDict [("product_id", VInt 4); ("quantity", VInt 2)]) ] in
  total_revenue (fst (create_order sample_env (VDict rd) (final unchecked_trace)))
    = VInt (-10) /\
  create_order sample_env
    (VDict [ ("action", VStr "create_order"); ("data", VDict [("product_id", VInt 5)]) ])
    (final unchecked_trace)
    = (final unchecked_trace,
       Ok [ ("action", VStr "create_order");
            ("error", VStr "Product not found");
            ("success", VBool false) ]).
Proof.
  cbv zeta. split.
  - rewrite (proj2 (create_order_by_position unchecked_trace sample_env
                      [ ("action", VStr "create_order");
                        ("data", VDict [("product_id", VInt 4); ("quantity", VInt 2)]) ]
                      [("product_id", VInt 4); ("quantity", VInt 2)] 4 eq_refl eq_refl)
                   (mkProduct 4 (VStr "Mystery Box") (VInt (-5)) (VStr "general") (VStr "many"))
                   (VInt (-10)) (VInt (-10)) ltac:(lia) eq_refl eq_refl eq_refl).
    reflexivity.
  - apply (proj1 (create_order_by_position unchecked_trace sample_env
                    [ ("action", VStr "create_order");
                      ("data", VDict [("product_id", VInt 5)]) ]
                    [("product_id", VInt 5)] 5 eq_refl eq_refl)).
    right. vm_compute. reflexivity.
Defined.

(** *** Simulated delays *)

Lemma binary_round_aux_shape : forall s p e l,
  emin prec emax <= e ->
  binary_round_aux prec emax s (Zpos p) e l = S754_infinity s \/
  exists m e', binary_round_aux prec emax s (Zpos p) e l = S754_finite s m e' /\ e <= e'.
Proof.
  intros s p e l He. unfold binary_round_aux.
  destruct (shr_fexp_pos p e l He) as [Hm1 He1].
  destruct (shr_fexp prec emax (Zpos p) e l) as [mrs1 e1]. cbn [fst snd] in Hm1, He1.
  pose proof (round_nearest_even_pos _ (loc_of_shr_record mrs1) Hm1) as Hr.
  destruct (round_nearest_even (shr_m mrs1) (loc_of_shr_record mrs1)) as [ | q | q];
    try lia.
  destruct (shr_fexp_pos q e1 loc_Exact ltac:(lia)) as [Hm2 He2].
  destruct (shr_fexp prec emax (Zpos q) e1 loc_Exact) as [mrs2 e2]. cbn [fst snd] in Hm2, He2.
  destruct (shr_m mrs2) as [ | m2 | m2]; try lia.
  destruct (e2 <=? emax - prec); [right | left; reflexivity].
  exists m2, e2. split; [reflexivity | lia].
Qed.

Lemma float_of_int_shape : forall p (s : bool) f,
  float_of_int (if s then Zneg p else Zpos p) = Ok f ->
  exists m e, f = S754_finite s m e /\ -52 <= e.
Proof.
  intros p s f H. unfold float_of_int in H. cbv zeta in H.
  match type of H with
  | context [is_infinite ?x] => destruct (is_infinite x) eqn:Hinf
  end; [discriminate H | ]. injection H as <-.
  assert (Hshape : binary_round prec emax s p 0 = S754_infinity s \/
                   exists m e, binary_round prec emax s p 0 = S754_finite s m e /\ -52 <= e).
  { unfold binary_round, shl_align.
    remember (fexp prec emax (Zpos (digits2_pos p) + 0)) as ex eqn:Hex.
    assert (Hlow : -52 <= ex) by (subst ex; unfold fexp, prec, emax, emin; lia).
    destruct (ex - 0) as [ | d | d] eqn:Hd.
    - destruct (binary_round_aux_shape s p 0 loc_Exact) as [Hi | (m & e & Hf & He)];
        [unfold emin, prec, emax; lia | left; exact Hi | ].
      right. exists m, e. split; [exact Hf | lia].
    - destruct (binary_round_aux_shape s p 0 loc_Exact) as [Hi | (m & e & Hf & He)];
        [unfold emin, prec, emax; lia | left; exact Hi | ].
      right. exists m, e. split; [exact Hf | lia].
    - destruct (binary_round_aux_shape s (Pos.iter xO p d) ex loc_Exact)
        as [Hi | (m & e & Hf & He)];
        [unfold emin, prec, emax; lia | left; exact Hi | ].
      right. exists m, e. split; [exact Hf | lia]. }
  assert (Hn : binary_normalize prec emax (if s then Zneg p else Zpos p) 0 false =
               binary_round prec emax s p 0) by (destruct s; reflexivity).
  rewrite Hn in *.
  destruct Hshape as [Hi | Hf]; [rewrite Hi in Hinf; discriminate Hinf | exact Hf].
Qed.

(** A finite float divided by [1000.0] keeps its sign and does not vanish. *)
Lemma div_thousand_shape : forall s m e,
  -52 <= e ->
  fdiv (S754_finite s m e) thousand = S754_infinity s \/
  exists m' e', fdiv (S754_finite s m e) thousand = S754_finite s m' e'.
Proof.
  intros s m e He.
  change thousand with (S754_finite false 8796093022208000 (-43)).
  unfold fdiv, SFdiv, SFdiv_core_binary. rewrite xorb_false_r.
  cbn [Zdigits2].
  change (Zpos (digits2_pos 8796093022208000)) with 53.
  pose proof (digits2_pos_lower m) as Hdig.
  set (d1 := Zpos (digits2_pos m)) in *.
  assert (Hd1 : 1 <= d1) by (subst d1; lia).
  set (e' := Z.min (fexp prec emax (d1 + e - (53 + -43))) (e - -43)).
  assert (He' : e' = Z.min (d1 + e - 63) (e + 43))
    by (subst e'; unfold fexp, emin, prec, emax; lia).
  set (sh := e - -43 - e').
  assert (Hsh : 0 <= sh /\ 106 - d1 <= sh) by (subst sh; lia).
  set (m' := match sh with
             | Z0 => Zpos m
             | Zpos _ => Z.shiftl (Zpos m) sh
             | Zneg _ => 0
             end).
  assert (Hm' : m' = Zpos m * 2 ^ sh).
  { subst m'. destruct sh as [ | q | q] eqn:Hq; [lia | apply Z.shiftl_mul_pow2; lia | lia]. }
  assert (Hbig : 2 ^ 105 <= m').
  { rewrite Hm'.
    apply Z.le_trans with (2 ^ (d1 - 1) * 2 ^ sh).
    - rewrite <- Z.pow_add_r by lia. apply Z.pow_le_mono_r; lia.
    - apply Z.mul_le_mono_nonneg_r; [apply Z.pow_nonneg; lia | exact Hdig]. }
  pose proof (Z_div_mod m' 8796093022208000 ltac:(lia)) as Hdiv.
  destruct (Z.div_eucl m' 8796093022208000) as [q r].
  assert (Hq : 0 < q).
  { assert (H105 : 8796093022208000 < 2 ^ 105) by (vm_compute; reflexivity). nia. }
  destruct q as [ | q | q]; try lia.
  destruct (binary_round_aux_shape s q e' (new_location 8796093022208000 r))
    as [Hi | (m2 & e2 & Hf & _)].
  - unfold emin, prec, emax. lia.
  - left. exact Hi.
  - right. exists m2, e2. exact Hf.
Qed.

Lemma negative_delay_refused : forall n,
  n < 0 ->
  exists ex,
    (let? secs := py_truediv (VInt n) (VFloat thousand) in py_sleep secs) = Raise ex.
Proof.
  intros n Hn. destruct n as [ | p | p]; try lia.
  unfold py_truediv. cbn [as_num]. unfold num_truediv. cbn [num_float].
  destruct (float_of_int (Zneg p)) as [a | ex] eqn:Ha; cbn [rbind];
    [ | exists ex; reflexivity].
  destruct (float_of_int_shape p true a Ha) as (m & e & -> & He).
  change (is_zero thousand) with false. cbn [rbind].
  destruct (div_thousand_shape true m e He) as [-> | (m' & e' & ->)];
    exists ValueError; reflexivity.
Qed.

Lemma short_delays_sleep : forall k,
  0 <= k <= 2000 -> sleeps_at_most_two k = true.
Proof.
  assert (H : forallb sleeps_at_most_two (map Z.of_nat (seq 0 2001)) = true)
    by (vm_compute; reflexivity).
  intros k Hk. rewrite forallb_forall in H. apply H.
  apply in_map_iff. exists (Z.to_nat k). split; [lia | ].
  apply in_seq. lia.
Qed.

Lemma py_min_int : forall n k, py_min (VInt n) k = Ok (VInt (Z.min n k)).
Proof.
  intros n k. unfold py_min. cbn [py_int_lt rbind].
  destruct (Z.ltb_spec k n); do 2 f_equal; lia.
Qed.

(** X10. [simulate_delay] with an integer [delay_ms]: a non-negative delay is
    clamped to at most 2000 ms, slept through (at most two seconds) and
    echoed; a negative delay is not clamped to zero but refused by
    [time.sleep] (or overflows on the way), so the call is answered with
    status 500.  Either way the store only counts the request. *)
Theorem simulate_delay_int : forall e s rd d n,
  lookup "action" rd = Some (VStr "simulate_delay") ->
  py_get (VDict rd) "data" (VDict []) = Ok (VDict d) ->
  lookup "delay_ms" d = Some (VInt n) ->
  (0 <= n ->
   simulate_delay e (VDict rd) s = (s, Ok (delay_result e (Z.min n 2000))) /\
   sleeps_at_most_two (Z.min n 2000) = true /\
   execute e (VDict rd) s =
     (incr_requests s,
      Json 200 (VDict (delay_result e (Z.min n 2000) ++ envelope e (incr_requests s))))) /\
  (n < 0 ->
   (exists ex, simulate_delay e (VDict rd) s = (s, Raise ex)) /\
   fst (execute e (VDict rd) s) = incr_requests s /\
   status_of (snd (execute e (VDict rd) s)) = 500).
Proof.
  intros e s rd d n Hact Hdata Hn.
  assert (Hexec : forall s0,
            execute e (VDict rd) s0 =
            serve (modify incr_requests ;;
                   try_except
                     (result <- simulate_delay e (VDict rd) ;;
                      s1 <- get ;;
                      ret (Json 200 (VDict (result ++ envelope e s1))))
                     (fun ex =>
                        ret (Json 500 (VDict
                          [ ("action", VStr "simulate_delay");
                            ("error", VStr (exn_str e ex));
                            ("success", VBool false);
                            ("timestamp", VStr (now e 1));
                            ("processing_time_ms", elapsed e 0);
                            ("plugin_type", VStr "python") ])))) s0).
  { intros s0. unfold execute, dispatch, serve, bind, try_except, lift, modify, get, ret.
    rewrite (lookup_some_nonempty _ _ _ Hact), !(py_get_found _ _ _ _ Hact).
    cbn [py_eq_str String.eqb Ascii.eqb Bool.eqb].
    destruct (simulate_delay e (VDict rd) (incr_requests s0)) as [s1 [r | ex]]; reflexivity. }
  assert (Hsim : forall s0,
            simulate_delay e (VDict rd) s0 =
            (s0, let? secs := py_truediv (VInt (Z.min n 2000)) (VFloat thousand) in
                 let? _ := py_sleep secs in
                 Ok (delay_result e (Z.min n 2000)))).
  { intros s0. unfold simulate_delay, bind, lift, ret.
    rewrite Hdata. cbn [py_get]. rewrite Hn, py_min_int.
    change (round_quotient 1000 1) with thousand.
    destruct (py_truediv (VInt (Z.min n 2000)) (VFloat thousand)) as [secs | ex];
      cbn [rbind]; [ | reflexivity].
    destruct (py_sleep secs); reflexivity. }
  split.
  - intros Hpos.
    pose proof (short_delays_sleep (Z.min n 2000) ltac:(lia)) as Hshort.
    assert (Hok : forall s0,
              simulate_delay e (VDict rd) s0 = (s0, Ok (delay_result e (Z.min n 2000)))).
    { intros s0. rewrite Hsim. unfold sleeps_at_most_two in Hshort.
      destruct (py_truediv (VInt (Z.min n 2000)) (VFloat thousand)) as [secs | ex];
        [ | discriminate Hshort].
      cbn [rbind]. destruct (py_sleep secs); [reflexivity | discriminate Hshort]. }
    split; [apply Hok | ]. split; [exact Hshort | ].
    rewrite Hexec. unfold serve, bind, try_except, modify, get, ret.
    rewrite Hok. reflexivity.
  - intros Hneg.
    destruct (negative_delay_refused (Z.min n 2000) ltac:(lia)) as [ex Hex].
    assert (Hfail : forall s0, simulate_delay e (VDict rd) s0 = (s0, Raise ex)).
    { intros s0. rewrite Hsim.
      destruct (py_truediv (VInt (Z.min n 2000)) (VFloat thousand)) as [secs | ex'];
        cbn [rbind] in *; [ | congruence].
      rewrite Hex. reflexivity. }
    split; [exists ex; apply Hfail | ].
    rewrite Hexec. unfold serve, bind, try_except, modify, get, ret.
    rewrite Hfail. split; reflexivity.
Qed.

Lemma simulate_delay_int_witness :
  simulate_delay sample_env
    (VDict [("action", VStr "simulate_delay"); ("data", VDict [("delay_ms", VInt 5000)])])
    data_store
    = (data_store, Ok (delay_result sample_env 2000)) /\
  status_of (snd (execute sample_env
    (VDict [("action", VStr "simulate_delay"); ("data", VDict [("delay_ms", VInt (-1))])])
    data_store)) = 500.
Proof.
  split.
  - exact (proj1 (proj1 (simulate_delay_int sample_env data_store
      [("action", VStr "simulate_delay"); ("data", VDict [("delay_ms", VInt 5000)])]
      [("delay_ms", VInt 5000)] 5000 eq_refl eq_refl eq_refl) ltac:(lia))).
  - exact (proj2 (proj2 (proj2 (simulate_delay_int sample_env data_store
      [("action", VStr "simulate_delay"); ("data", VDict [("delay_ms", VInt (-1))])]
      [("delay_ms", VInt (-1))] (-1) eq_refl eq_refl eq_refl) ltac:(lia)))).
Defined.

(** *** The [order.created] hook, step by step *)

(** X11. An [order.created] hook with a mapping for payload stores its order
    first and updates the aggregate after: when the total (0.0 if the
    payload has none) can be added to the revenue, the order is stored,
    revenue and [orders_count] are updated and the hook is acknowledged;
    when the addition raises, the order is stored all the same, the
    aggregate is left as it was and the answer is status 500. *)
Theorem order_created_stores_before_adding : forall e s b d,
  lookup "hook" b = Some (VStr "order.created") ->
  py_get (VDict b) "payload" (VDict []) = Ok (VDict d) ->
  let total := match lookup "total" d with
               | Some v => v
               | None => VFloat (S754_zero false)
               end in
  let order_id := match lookup "id" d with Some v => v | None => VStr "unknown" end in
  let stored := append_order (hook_order e s total) (incr_requests s) in
  (forall rev,
     py_add (total_revenue s) total = Ok rev ->
     handle_order_action e (VDict b) s =
       (incr_orders_count (set_total_revenue rev stored),
        order_ack e (VStr "order.created") order_id)) /\
  (forall ex,
     py_add (total_revenue s) total = Raise ex ->
     fst (handle_order_action e (VDict b) s) = stored /\
     status_of (snd (handle_order_action e (VDict b) s)) = 500).
Proof.
  intros e s b d Hhook Hpayload total order_id stored.
  unfold handle_order_action, order_action_body, hook_processed, hook_failed.
  rewrite (lookup_some_nonempty _ _ _ Hhook).
  unfold serve, bind, try_except, lift, ret, modify, get.
  rewrite (py_get_found _ _ _ _ Hhook), Hpayload.
  cbn [py_in_strs order_hooks existsb py_eq_str String.eqb Ascii.eqb Bool.eqb orb py_get].
  fold total order_id.
  change (total_revenue (append_order _ (incr_requests s))) with (total_revenue s).
  split.
  - intros rev Hadd. rewrite Hadd. reflexivity.
  - intros ex Hadd. rewrite Hadd. split; reflexivity.
Qed.

Lemma order_created_stores_before_adding_witness :
  fst (handle_order_action sample_env
         (VDict [ ("hook", VStr "order.created");
                  ("payload", VDict [("total", VStr "12.50")]) ]) data_store)
    = append_order (hook_order sample_env data_store (VStr "12.50"))
                   (incr_requests data_store) /\
  total_revenue
    (fst (handle_order_action sample_env
            (VDict [ ("hook", VStr "order.created"); ("payload", VDict []) ]) data_store))
    = VFloat (S754_zero false).
Proof.
  split.
  - exact (proj1 (proj2 (order_created_stores_before_adding sample_env data_store
      [ ("hook", VStr "order.created"); ("payload", VDict [("total", VStr "12.50")]) ]
      [("total", VStr "12.50")] eq_refl eq_refl) TypeError eq_refl)).
  - rewrite (proj1 (order_created_stores_before_adding sample_env data_store
      [ ("hook", VStr "order.created"); ("payload", VDict []) ]
      [] eq_refl eq_refl) (VFloat (S754_zero false)) eq_refl).
    reflexivity.
Defined.

(** *** [calculate_fibonacci] off the integers *)

Lemma fibonacci_nan : forall depth,
  fibonacci depth (VFloat S754_nan) = Raise RecursionError.
Proof.
  induction depth as [ | depth IH]; [reflexivity | ].
  cbn [fibonacci py_le_int int_float_compare rbind].
  change (py_sub (VFloat S754_nan) (VInt 1)) with (Ok (VFloat S754_nan)).
  cbn [rbind]. rewrite IH. reflexivity.
Qed.

Lemma py_min_not_number : forall v k,
  as_num v = None -> py_min v k = Raise TypeError.
Proof.
  intros v k H. destruct v; try discriminate H; reflexivity.
Qed.

(** X12. [calculate_fibonacci] away from integer inputs.  Without [n] the
    input is 20 and the result 6765.  An [n] that is not a number makes
    [min(n, 35)] raise [TypeError], and a NaN makes the recursion run out
    of depth: both are answered with status 500, and in both the
    [calculations] counter has already been incremented. *)
Theorem calculate_fibonacci_edge_cases : forall e s rd d,
  lookup "action" rd = Some (VStr "calculate_fibonacci") ->
  py_get (VDict rd) "data" (VDict []) = Ok (VDict d) ->
  (lookup "n" d = None ->
   calculate_fibonacci (VDict rd) s =
     (incr_calculations s, Ok (fibonacci_result 20 6765 (incr_calculations s)))) /\
  (forall n,
     lookup "n" d = Some n ->
     as_num n = None \/ n = VFloat S754_nan ->
     (exists ex, calculate_fibonacci (VDict rd) s = (incr_calculations s, Raise ex)) /\
     fst (execute e (VDict rd) s) = incr_calculations (incr_requests s) /\
     status_of (snd (execute e (VDict rd) s)) = 500).
Proof.
  intros e s rd d Hact Hdata. split.
  - intros Hn. unfold calculate_fibonacci, bind, lift, modify, get, ret.
    rewrite Hdata. cbn [py_get]. rewrite Hn, py_min_int.
    rewrite fibonacci_int by (unfold recursion_limit; cbn; lia).
    reflexivity.
  - intros n Hn Hbad.
    assert (Hfail : exists ex, forall s0,
              calculate_fibonacci (VDict rd) s0 = (incr_calculations s0, Raise ex)).
    { destruct Hbad as [Hnum | ->].
      - exists TypeError. intros s0.
        unfold calculate_fibonacci, bind, lift, modify, get, ret.
        rewrite Hdata. cbn [py_get]. rewrite Hn, (py_min_not_number _ _ Hnum). reflexivity.
      - exists RecursionError. intros s0.
        unfold calculate_fibonacci, bind, lift, modify, get, ret.
        rewrite Hdata. cbn [py_get]. rewrite Hn.
        change (py_min (VFloat S754_nan) 35) with (Ok (VFloat S754_nan)).
        cbv beta iota. rewrite fibonacci_nan. reflexivity. }
    destruct Hfail as [ex Hfail]. split; [exists ex; apply Hfail | ].
    unfold execute, dispatch, serve, bind, try_except, lift, modify, get, ret.
    rewrite (lookup_some_nonempty _ _ _ Hact), !(py_get_found _ _ _ _ Hact).
    cbn [py_eq_str String.eqb Ascii.eqb Bool.eqb].
    rewrite Hfail. split; reflexivity.
Qed.

Lemma calculate_fibonacci_edge_cases_witness :
  status_of (snd (execute sample_env
    (VDict [("action", VStr "calculate_fibonacci"); ("data", VDict [("n", VStr "10")])])
    data_store)) = 500 /\
  calculations (fst (execute sample_env
    (VDict [("action", VStr "calculate_fibonacci"); ("data", VDict [("n", VStr "10")])])
    data_store)) = 1.
Proof.
  destruct (proj2 (calculate_fibonacci_edge_cases sample_env data_store
      [("action", VStr "calculate_fibonacci"); ("data", VDict [("n", VStr "10")])]
      [("n", VStr "10")] eq_refl eq_refl) (VStr "10") eq_refl (or_introl eq_refl))
    as (_ & Hs & Hst).
  split; [exact Hst | rewrite Hs; reflexivity].
Defined.

(** *** The counters as the responses report them *)

(** X13. Every JSON answer of [/execute] under status 200, a failure result
    included, reports under [total_requests] the [requests] counter as
    this call left it, one above its value before; and [/health] reports
    the same under [requests_served]. *)
Theorem responses_report_request_count : forall e body s b,
  (snd (execute e body s) = Json 200 (VDict b) ->
   lookup "total_requests" b = Some (VInt (requests s + 1))) /\
  (snd (health e s) = Json 200 (VDict b) ->
   lookup "requests_served" b = Some (VInt (requests s + 1))).
Proof.
  intros e body s b. split.
  - unfold_handlers. run_handler; intros H; try discriminate H;
      injection H as <-; reflexivity.
  - unfold health. run_handler. intros H. injection H as <-. reflexivity.
Qed.

Lemma responses_report_request_count_witness :
  lookup "total_requests"
    (match body_of (snd (execute sample_env (VDict [("action", VStr "nope")])
                           (final execute_trace))) with
     | VDict b => b
     | _ => []
     end) = Some (VInt 6).
Proof.
  apply (proj1 (responses_report_request_count sample_env
                  (VDict [("action", VStr "nope")]) (final execute_trace) _)).
  reflexivity.
Defined.

(** *** Random data *)

Lemma fold_left_max_spec : forall l a,
  a <= fold_left Z.max l a /\
  Forall (fun x => x <= fold_left Z.max l a) l /\
  (fold_left Z.max l a = a \/ In (fold_left Z.max l a) l).
Proof.
  induction l as [ | x l IH]; intros a; cbn [fold_left].
  - split; [lia | ]. split; [constructor | left; reflexivity].
  - destruct (IH (Z.max a x)) as (Hle & Hall & Hin).
    split; [lia | ]. split; [constructor; [lia | exact Hall] | ].
    destruct Hin as [Heq | Hin]; [ | right; right; exact Hin].
    rewrite Heq. destruct (Z.max_spec a x) as [[_ ->] | [_ ->]];
      [right; left; reflexivity | left; reflexivity].
Qed.

Lemma fold_left_min_spec : forall l a,
  fold_left Z.min l a <= a /\
  Forall (fun x => fold_left Z.min l a <= x) l /\
  (fold_left Z.min l a = a \/ In (fold_left Z.min l a) l).
Proof.
  induction l as [ | x l IH]; intros a; cbn [fold_left].
  - split; [lia | ]. split; [constructor | left; reflexivity].
  - destruct (IH (Z.min a x)) as (Hle & Hall & Hin).
    split; [lia | ]. split; [constructor; [lia | exact Hall] | ].
    destruct Hin as [Heq | Hin]; [ | right; right; exact Hin].
    rewrite Heq. destruct (Z.min_spec a x) as [[_ ->] | [_ ->]];
      [left; reflexivity | right; left; reflexivity].
Qed.

Lemma fold_left_add_bounds : forall l a,
  Forall (fun x => 1 <= x <= 100) l ->
  a + len l <= fold_left Z.add l a <= a + 100 * len l.
Proof.
  induction l as [ | x l IH]; intros a Hall; cbn [fold_left].
  - unfold len; cbn. lia.
  - inversion Hall as [ | y l' Hx Hl]; subst.
    specialize (IH (a + x) Hl). unfold len in *. cbn [List.length].
    rewrite Nat2Z.inj_succ. lia.
Qed.

Lemma random_numbers_range : forall e,
  List.length (random_numbers e) = 10%nat /\
  Forall (fun x => 1 <= x <= 100) (random_numbers e).
Proof.
  intros e. split; [reflexivity | ].
  unfold random_numbers. apply Forall_forall. intros x Hin.
  apply in_map_iff in Hin. destruct Hin as (k & <- & _).
  pose proof (Z.mod_pos_bound (randint e k) 100 ltac:(lia)). lia.
Qed.

Lemma tenths_are_finite : forall t, 0 <= t <= 1000 -> tenth_is_finite t = true.
Proof.
  assert (H : forallb tenth_is_finite (map Z.of_nat (seq 0 1001)) = true)
    by (vm_compute; reflexivity).
  intros t Ht. rewrite forallb_forall in H. apply H.
  apply in_map_iff. exists (Z.to_nat t). split; [lia | ].
  apply in_seq. lia.
Qed.

(** X14. [random_data] never fails and never writes: it returns ten numbers
    between 1 and 100 with their sum (between 10 and 1000), the sum
    divided by ten as average, and as [max] and [min] two of the numbers
    that bound all ten. *)
Theorem random_data_consistent : forall e s,
  exists numbers highest lowest,
    random_data e s =
      (s, Ok (random_result numbers (fold_left Z.add numbers 0)
                (round_quotient (fold_left Z.add numbers 0) 10) highest lowest)) /\
    List.length numbers = 10%nat /\
    Forall (fun x => 1 <= x <= 100) numbers /\
    10 <= fold_left Z.add numbers 0 <= 1000 /\
    In highest numbers /\ Forall (fun x => x <= highest) numbers /\
    In lowest numbers /\ Forall (fun x => lowest <= x) numbers.
Proof.
  intros e s.
  destruct (random_numbers_range e) as [Hlen Hrange].
  pose proof (fold_left_add_bounds (random_numbers e) 0 Hrange) as Hsum.
  unfold len in Hsum. rewrite Hlen in Hsum.
  remember (random_numbers e) as numbers eqn:Hnum.
  destruct numbers as [ | x rest]; [discriminate Hlen | ].
  destruct (fold_left_max_spec rest x) as (Hxmax & Hmax & Hmaxin).
  destruct (fold_left_min_spec rest x) as (Hxmin & Hmin & Hminin).
  exists (x :: rest), (fold_left Z.max rest x), (fold_left Z.min rest x).
  split; [ | split; [exact Hlen | split; [exact Hrange | split; [lia | ]]]].
  - unfold random_data, bind, lift, ret. rewrite <- Hnum.
    unfold py_truediv. cbn [as_num]. unfold num_truediv, len. rewrite Hlen.
    change (Z.of_nat 10 =? 0) with false. cbv zeta.
    pose proof (tenths_are_finite (fold_left Z.add (x :: rest) 0) ltac:(lia)) as Hfin.
    unfold tenth_is_finite in Hfin. apply negb_true_iff in Hfin.
    change (Z.of_nat 10) with 10. rewrite Hfin. reflexivity.
  - split; [destruct Hmaxin as [-> | Hin]; [left; reflexivity | right; exact Hin] | ].
    split; [constructor; [exact Hxmax | exact Hmax] | ].
    split; [destruct Hminin as [-> | Hin]; [left; reflexivity | right; exact Hin] | ].
    constructor; [exact Hxmin | exact Hmin].
Qed.

(** *** The recent orders *)

(** X15. When [get_analytics] returns after a sequence of requests, its
    [recent_orders] are the last orders stored, in the order they were
    stored: all of them when there are five or fewer, the last five
    otherwise.  Each entry shows the id (the position of the order), the
    total, the creation time and the status of its order, with the
    product, quantity and unit price for an order that [create_order]
    made and none of them for an order from the webhook. *)
Theorem recent_orders_are_the_last_five : forall rs r,
  snd (get_analytics (final rs)) = Ok r ->
  exists data recent,
    lookup "data" r = Some (VDict data) /\
    lookup "recent_orders" data = Some (VList recent) /\
    List.length recent = Nat.min (List.length (orders (final rs))) 5 /\
    forall k, (k < List.length recent)%nat ->
      let i := (List.length (orders (final rs)) - List.length recent + k)%nat in
      exists o entry,
        nth_error (orders (final rs)) i = Some o /\
        nth_error recent k = Some (VDict entry) /\
        lookup "id" entry = Some (VInt (Z.of_nat i + 1)) /\
        lookup "total_price" entry = Some (o_total_price o) /\
        lookup "created_at" entry = Some (VStr (o_created_at o)) /\
        lookup "status" entry =
          Some (VStr (match o_status o with
                      | Processing => "processing"
                      | Confirmed => "confirmed"
                      end)) /\
        match o_link o with
        | Some l =>
            lookup "product_id" entry = Some (l_product_id l) /\
            lookup "product_name" entry = Some (l_product_name l) /\
            lookup "quantity" entry = Some (l_quantity l) /\
            lookup "unit_price" entry = Some (l_unit_price l)
        | None =>
            lookup "product_id" entry = None /\
            lookup "product_name" entry = None /\
            lookup "quantity" entry = None /\
            lookup "unit_price" entry = None
        end.
Proof.
  intros rs r H.
  destruct (reachable_orders _ (final_reachable rs)) as (Hid & _ & _).
  remember (final rs) as s eqn:Hs. clear Hs.
  unfold get_analytics, bind, lift, get, ret in H.
  destruct (py_truediv (total_revenue s) (VInt (Z.max (len (orders s)) 1))) as [avg | ex];
    cbn [snd] in H; [ | discriminate H].
  injection H as <-.
  assert (Hlen : List.length (map order_value (last5 (orders s))) =
                 Nat.min (List.length (orders s)) 5).
  { unfold last5. rewrite length_map, length_skipn. lia. }
  eexists _, _. split; [reflexivity | ]. split; [reflexivity | ].
  split; [exact Hlen | ].
  intros k Hk. cbv zeta. rewrite Hlen in *.
  replace (List.length (orders s) - Nat.min (List.length (orders s)) 5)%nat
    with (List.length (orders s) - 5)%nat by lia.
  destruct (nth_error (orders s) (List.length (orders s) - 5 + k)) as [o | ] eqn:Hnth;
    [ | apply nth_error_None in Hnth; lia].
  assert (Hoid : o_id o = Z.of_nat (List.length (orders s) - 5 + k) + 1).
  { pose proof (map_nth_error o_id _ _ Hnth) as Hm.
    rewrite Hid, (nth_error_positions _ _ _ _ Hnth) in Hm. congruence. }
  assert (Hentry : nth_error (map order_value (last5 (orders s))) k = Some (order_value o)).
  { apply map_nth_error. unfold last5. rewrite nth_error_skipn. exact Hnth. }
  unfold order_value in Hentry. exists o.
  destruct (o_link o) as [l | ]; eexists;
    (split; [reflexivity | ]); (split; [exact Hentry | ]);
    cbn; rewrite Hoid; destruct (o_status o); repeat split; reflexivity.
Qed.

Lemma recent_orders_are_the_last_five_witness :
  exists r data recent entry,
    snd (get_analytics (final six_orders_trace)) = Ok r /\
    lookup "data" r = Some (VDict data) /\
    lookup "recent_orders" data = Some (VList recent) /\
    List.length recent = 5%nat /\
    nth_error recent 0 = Some (VDict entry) /\
    lookup "id" entry = Some (VInt 2) /\
    lookup "total_price" entry = Some (VInt 20).
Proof.
  let v := eval vm_compute in (snd (get_analytics (final six_orders_trace))) in
  match v with
  | Ok ?r =>
      exists r;
      assert (H : snd (get_analytics (final six_orders_trace)) = Ok r)
        by (vm_compute; reflexivity);
      destruct (recent_orders_are_the_last_five six_orders_trace r H)
        as (data & recent & Hd & Hr & Hl & Hk)
  end.
  destruct (Hk 0%nat ltac:(rewrite Hl; vm_compute; lia))
    as (o & entry & Ho & He & Hi & Ht & _).
  exists data, recent, entry.
  rewrite Hl in Ho, Hi. vm_compute in Ho. injection Ho as <-.
  split; [exact H | ]. split; [exact Hd | ]. split; [exact Hr | ].
  split; [exact Hl | ]. split; [exact He | ]. split; [exact Hi | exact Ht].
Defined.

(** *** The benchmark *)

Lemma sum_of_squares_succ : forall n,
  sum_of_squares (S n) = sum_of_squares n + Z.of_nat n * Z.of_nat n.
Proof.
  intros n. unfold sum_of_squares.
  rewrite seq_S, map_app, fold_left_app. reflexivity.
Qed.

Lemma sum_of_squares_closed : forall n,
  6 * sum_of_squares n = Z.of_nat n * (Z.of_nat n - 1) * (2 * Z.of_nat n - 1).
Proof.
  induction n as [ | n IH]; [reflexivity | ].
  rewrite sum_of_squares_succ, Nat2Z.inj_succ. nia.
Qed.

(** X16. [/benchmark] does not touch the store and always reports 332833500:
    the squares of 0 to 999, as [range(1000)] has them, and not those of
    1 to 1000 that its [computation] label names, which sum to 333833500. *)
Theorem benchmark_sums_range_1000 : forall e s,
  fst (benchmark e s) = s /\
  (exists b, snd (benchmark e s) = Json 200 (VDict b) /\
             lookup "benchmark_result" b = Some (VInt 332833500) /\
             lookup "computation" b = Some (VStr "sum of squares 1-1000")) /\
  (forall n, 6 * sum_of_squares n = Z.of_nat n * (Z.of_nat n - 1) * (2 * Z.of_nat n - 1)) /\
  sum_of_squares 1001 = 333833500.
Proof.
  intros e s.
  assert (H1000 : sum_of_squares 1000 = 332833500).
  { pose proof (sum_of_squares_closed 1000) as H.
    change (Z.of_nat 1000) with 1000 in H. lia. }
  split; [reflexivity | ]. split; [ | split].
  - unfold benchmark. cbv zeta. rewrite H1000.
    eexists. split; [reflexivity | ]. split; reflexivity.
  - exact sum_of_squares_closed.
  - pose proof (sum_of_squares_closed 1001) as H.
    change (Z.of_nat 1001) with 1001 in H. lia.
Qed.

(** *** Payloads that are not mappings *)

Lemma py_get_not_mapping : forall v k dflt,
  is_mapping v = false -> py_get v k dflt = Raise AttributeError.
Proof. intros v k dflt H. destruct v; try reflexivity; discriminate H. Qed.

(** X17. A supported product or order hook whose [payload] is present but is
    not a mapping ([null], a list, a number, a string) creates nothing:
    the lookup in the payload raises before any write, the answer is
    status 500 naming the hook, and the store only counts the request.  A
    hook without [payload] is served with the empty mapping instead: for
    [product.created] that stores a product made of the defaults. *)
Theorem hooks_need_a_mapping_payload : forall e s b h,
  lookup "hook" b = Some (VStr h) ->
  (forall p,
     lookup "payload" b = Some p ->
     is_mapping p = false ->
     (py_in_strs (VStr h) product_hooks = true ->
      handle_product_action e (VDict b) s =
        (incr_requests s,
         Json 500 (VDict [ ("success", VBool false);
                           ("error", VStr (exn_str e AttributeError));
                           ("hook", VStr h) ]))) /\
     (py_in_strs (VStr h) order_hooks = true ->
      handle_order_action e (VDict b) s =
        (incr_requests s,
         Json 500 (VDict [ ("success", VBool false);
                           ("error", VStr (exn_str e AttributeError));
                           ("hook", VStr h) ])))) /\
  (lookup "payload" b = None ->
   h = "product.created" ->
   products (fst (handle_product_action e (VDict b) s)) =
     (products s ++
      [ mkProduct (len (products s) + 1) (VStr "Unknown Product")
                  (VFloat (S754_zero false)) (VStr "general") (VInt 0) ])%list /\
   status_of (snd (handle_product_action e (VDict b) s)) = 200).
Proof.
  intros e s b h Hhook. split.
  - intros p Hp Hnot. split; intros Hsup;
      unfold handle_product_action, product_action_body, handle_order_action,
        order_action_body, hook_failed;
      rewrite (lookup_some_nonempty _ _ _ Hhook);
      unfold serve, bind, try_except, lift, ret, modify, get;
      rewrite (py_get_found _ _ _ _ Hhook), (py_get_found _ _ _ _ Hp),
        (member_printed _ _ Hsup eq_refl), Hsup, (py_get_not_mapping _ _ _ Hnot);
      reflexivity.
  - intros Hnone ->.
    unfold handle_product_action, product_action_body, hook_processed.
    rewrite (lookup_some_nonempty _ _ _ Hhook).
    unfold serve, bind, try_except, lift, ret, modify, get.
    rewrite (py_get_found _ _ _ _ Hhook). cbn [py_get]. rewrite Hnone.
    split; reflexivity.
Qed.

Lemma hooks_need_a_mapping_payload_witness :
  handle_order_action sample_env
    (VDict [("hook", VStr "order.created"); ("payload", VNone)]) data_store
  = (incr_requests data_store,
     Json 500 (VDict [ ("success", VBool false);
                       ("error", VStr "");
                       ("hook", VStr "order.created") ])).
Proof.
  exact (proj2 (proj1 (hooks_need_a_mapping_payload sample_env data_store
    [("hook", VStr "order.created"); ("payload", VNone)] "order.created" eq_refl)
    VNone eq_refl eq_refl) eq_refl).
Defined.
